(** * user_service: the authentication and authorization core

    A shallow embedding of the user account micro-service:
      - [src/utils/password.js]   hashPassword, comparePassword
      - [src/plugins/auth.js]     authenticate, generateToken
      - [src/shared-response.js]  createResponse
      - [src/routes/users.js]     the five route handlers

    The npm packages the service calls ([bcrypt], [jsonwebtoken], the Prisma
    client) are not part of the repository.  Their primitives appear here as
    the fields of a record [Libs]; what the service itself does with them is
    written out from the source.  The calls to [request.log] are left out:
    they change neither a reply nor the database. *)

From Stdlib Require Import String Ascii List ZArith Lia Bool.
From Stdlib Require Import DecimalString DecimalZ.
Import ListNotations.

#[local] Set Warnings "-register-all".

Local Open Scope list_scope.
Local Open Scope string_scope.

(** ** Strings as JavaScript uses them *)

Module Str.

(** [s.length === 0], the test behind the falsiness of a string. *)
Definition is_empty (s : string) : bool :=
  match s with EmptyString => true | String _ _ => false end.

(** [s.substring(n)]: everything from position [n] on. *)
Definition from (n : nat) (s : string) : string :=
  substring n (String.length s - n) s.

(** [s.startsWith(p)]. *)
Definition startsWith (p s : string) : bool := prefix p s.

(** The first [n] characters of [s] (all of it when it is shorter). *)
Fixpoint take (n : nat) (s : string) : string :=
  match n, s with
  | S n', String c s' => String c (take n' s')
  | _, _ => EmptyString
  end.

Fixpoint replicate (n : nat) (c : ascii) : string :=
  match n with
  | O => EmptyString
  | S n' => String c (replicate n' c)
  end.

End Str.

(** ** JavaScript values, thrown errors, and the response envelope *)

(** The JSON-like values that travel in request and response bodies.  An
    object is its list of own properties in insertion order. *)
Inductive JsVal : Type :=
| JNull
| JBool (b : bool)
| JNum (n : Z)
| JStr (s : string)
| JDate (ms : Z)
| JObj (props : list (string * JsVal)).

Definition JsObj : Type := list (string * JsVal).

(** [o[k]] on a plain object; [None] stands for [undefined]. *)
Fixpoint get_prop (k : string) (o : JsObj) : option JsVal :=
  match o with
  | [] => None
  | (k', v) :: o' => if String.eqb k k' then Some v else get_prop k o'
  end.

(** [const { k: _, ...rest } = o]: the own properties of [o] except [k]. *)
Definition omit (k : string) (o : JsObj) : JsObj :=
  filter (fun kv => negb (String.eqb k (fst kv))) o.

(** [Object.keys(o).length === 0]. *)
Definition no_keys (o : JsObj) : bool :=
  match o with [] => true | _ :: _ => false end.

(** A thrown [Error]: its constructor name, the [code] Prisma puts on its
    known request errors, and its [message]. *)
Record JsError : Type := mkError {
  err_name : string;
  err_code : option string;
  err_message : string
}.

(** The result of a call that may throw. *)
Inductive Outcome (A : Type) : Type :=
| Ok (a : A)
| Throw (e : JsError).
Arguments Ok {A} a.
Arguments Throw {A} e.

(** [createResponse(success, message, data, error)] of shared-response.js:
    [data] and [error] are set only when they are not [undefined].  (No caller
    passes [meta].) *)
Definition createResponse (success : bool) (message : string)
    (data : option JsVal) (error : option string) : JsObj :=
  ([("success", JBool success); ("message", JStr message)]
   ++ match data with Some d => [("data", d)] | None => [] end
   ++ match error with Some e => [("error", JStr e)] | None => [] end)%list.

(** [reply.status(code).send(body)]. *)
Record Reply : Type := mkReply {
  status : nat;
  payload : JsObj
}.

(** ** password.js over the bcrypt package *)

Module Password.

Definition SALT_ROUNDS : nat := 10.

(** bcrypt's key: the UTF-8 bytes of the password followed by a NUL, cut
    at 72 bytes.  Bytes past the 72nd never reach the cipher. *)
Definition bcrypt_key (password : string) : string :=
  Str.take 72 (password ++ String Ascii.zero EmptyString).

Definition digit (n : nat) : ascii := ascii_of_nat (48 + n).

Definition two_digits (n : nat) : string :=
  String (digit (n / 10)) (String (digit (n mod 10)) EmptyString).

Definition digit_value (c : ascii) : option nat :=
  let n := nat_of_ascii c in
  if Nat.leb 48 n && Nat.leb n 57 then Some (n - 48) else None.

(** The settings prefix of a hash string: version, cost, 22 characters of
    salt; 29 characters in all. *)
Definition settings (cost : nat) (salt : string) : string :=
  "$2b$" ++ two_digits cost ++ "$" ++ salt.

(** Reads the cost and the salt back from the first 29 characters. *)
Definition parse_settings (hashed : string) : option (nat * string) :=
  if Nat.ltb (String.length hashed) 29 then None
  else if negb (String.eqb (substring 0 4 hashed) "$2b$") then None
  else if negb (String.eqb (substring 6 1 hashed) "$") then None
  else
    match get 4 hashed, get 5 hashed with
    | Some c1, Some c2 =>
        match digit_value c1, digit_value c2 with
        | Some d1, Some d2 => Some (10 * d1 + d2, substring 7 22 hashed)
        | _, _ => None
        end
    | _, _ => None
    end.

Section WithCore.

(** The Eksblowfish core of bcrypt: cost, salt and key give the 31
    characters of the digest. *)
Variable core : nat -> string -> string -> string.

(** [bcrypt.hash(password, rounds)], with the salt that [genSalt] drew
    made explicit. *)
Definition bcrypt_hash (salt password : string) (rounds : nat) : string :=
  settings rounds salt ++ core rounds salt (bcrypt_key password).

(** [bcrypt.compare(password, hashed)]: hashes the password again under
    the settings embedded in [hashed] and compares the two strings; a
    string that is no bcrypt hash compares false. *)
Definition bcrypt_compare (password hashed : string) : bool :=
  match parse_settings hashed with
  | None => false
  | Some (cost, salt) =>
      String.eqb (settings cost salt ++ core cost salt (bcrypt_key password)) hashed
  end.

(** [hashPassword(password)]. *)
Definition hashPassword (salt password : string) : string :=
  bcrypt_hash salt password SALT_ROUNDS.

(** [comparePassword(password, hashedPassword)]. *)
Definition comparePassword (password hashedPassword : string) : bool :=
  bcrypt_compare password hashedPassword.

End WithCore.




End Password.

(** ** jsonwebtoken as auth.js uses it *)

Module Jwt.

(** The payload of a token of this service: what [generateToken] puts in
    it, and the [iat] and [exp] (seconds since the epoch) that [jwt.sign]
    adds under [expiresIn]. *)
Record Claims : Type := mkClaims {
  c_user_id : string;
  c_email : string;
  c_iat : Z;
  c_exp : Z
}.

(** A decoded token: payload and signature (the header is always HS256). *)
Record Jws : Type := mkJws {
  jws_payload : Claims;
  jws_signature : string
}.

Definition JsonWebTokenError (message : string) : JsError :=
  mkError "JsonWebTokenError" None message.

Definition TokenExpiredError : JsError :=
  mkError "TokenExpiredError" None "jwt expired".

Section WithPrimitives.

(** The HS256 signature of a payload under a key. *)
Variable hmac : string -> Claims -> string.
(** The compact serialisation of a token and its parser. *)
Variable render : Jws -> string.
Variable parse : string -> option Jws.
(** The [ms] package: a time span such as [7d] in milliseconds. *)
Variable ms : string -> option Z.

(** [jwt.sign({ user_id, email }, secret, { expiresIn })] at clock
    reading [now] (seconds). *)
Definition sign (now : Z) (user_id email : string)
    (secret : option string) (expiresIn : string) : Outcome string :=
  match secret with
  | None => Throw (mkError "Error" None "secretOrPrivateKey must have a value")
  | Some key =>
      if Str.is_empty key
      then Throw (mkError "Error" None "secretOrPrivateKey must have a value")
      else
        match ms expiresIn with
        | None =>
            Throw (mkError "Error" None
              "expiresIn should be a number of seconds or string representing a timespan")
        | Some span =>
            let claims := mkClaims user_id email now (now + span / 1000) in
            Ok (render (mkJws claims (hmac key claims)))
        end
  end.

(** [jwt.verify(token, secret)] at clock reading [now] (seconds): the
    payload, or the error the package throws.  A token is expired from
    the second [exp] on. *)
Definition verify (now : Z) (token : string) (secret : option string)
    : Outcome Claims :=
  if Str.is_empty token then Throw (JsonWebTokenError "jwt must be provided")
  else
    match parse token with
    | None => Throw (JsonWebTokenError "jwt malformed")
    | Some jws =>
        match secret with
        | None => Throw (JsonWebTokenError "secret or public key must be provided")
        | Some key =>
            if Str.is_empty key
            then Throw (JsonWebTokenError "secret or public key must be provided")
            else if negb (String.eqb (jws_signature jws) (hmac key (jws_payload jws)))
            then Throw (JsonWebTokenError "invalid signature")
            else if Z.leb (c_exp (jws_payload jws)) now
            then Throw TokenExpiredError
            else Ok (jws_payload jws)
        end
    end.

End WithPrimitives.

End Jwt.

(** The primitives of the three packages, bundled. *)
Record Libs : Type := mkLibs {
  bcrypt_core : nat -> string -> string -> string;
  hmac : string -> Jwt.Claims -> string;
  jws_render : Jwt.Jws -> string;
  jws_parse : string -> option Jwt.Jws;
  ms : string -> option Z
}.

(** The parser of tokens inverts their serialisation, and no token is the
    empty string. *)
Definition codec_ok (L : Libs) : Prop :=
  forall j, jws_parse L (jws_render L j) = Some j /\
            Str.is_empty (jws_render L j) = false.

(** [process.env], as far as the service reads it. *)
Record Env : Type := mkEnv {
  JWT_SECRET : option string;
  JWT_EXPIRES_IN : option string
}.

(** [process.env.JWT_EXPIRES_IN || '7d']. *)
Definition expiresIn (env : Env) : string :=
  match JWT_EXPIRES_IN env with
  | Some s => if Str.is_empty s then "7d" else s
  | None => "7d"
  end.


(** ** The rows Prisma hands back *)

(** A row of the users table. *)
Record User : Type := mkUser {
  u_id : string;
  u_email : string;
  u_password : string;
  u_name : string;
  u_push_token : option string;
  u_created_at : Z;
  u_updated_at : Z
}.

(** A row of the notification preferences table. *)
Record Prefs : Type := mkPrefs {
  np_id : string;
  np_user_id : string;
  np_email : bool;
  np_push : bool;
  np_sms : bool
}.

(** A user fetched with [include: { notification_preferences: true }]. *)
Definition UserIncl : Type := (User * option Prefs)%type.

Definition prefs_js (p : Prefs) : JsObj :=
  [("id", JStr (np_id p)); ("user_id", JStr (np_user_id p));
   ("email", JBool (np_email p)); ("push", JBool (np_push p));
   ("sms", JBool (np_sms p))].

(** The object Prisma returns for a user with its relation included. *)
Definition user_js (u : UserIncl) : JsObj :=
  [("id", JStr (u_id (fst u)));
   ("email", JStr (u_email (fst u)));
   ("password", JStr (u_password (fst u)));
   ("name", JStr (u_name (fst u)));
   ("push_token", match u_push_token (fst u) with Some t => JStr t | None => JNull end);
   ("created_at", JDate (u_created_at (fst u)));
   ("updated_at", JDate (u_updated_at (fst u)));
   ("notification_preferences",
      match snd u with Some p => JObj (prefs_js p) | None => JNull end)].

(** [{ ...base, ...extra }]: a later property overrides an earlier one of the
    same name and keeps its place. *)
Fixpoint set_prop (k : string) (v : JsVal) (o : JsObj) : JsObj :=
  match o with
  | [] => [(k, v)]
  | (k', v') :: o' =>
      if String.eqb k k' then (k', v) :: o' else (k', v') :: set_prop k v o'
  end.

Definition spread (base extra : JsObj) : JsObj :=
  fold_left (fun o kv => set_prop (fst kv) (snd kv) o) extra base.

(** ** Route handlers as programs over their collaborators *)

(** [where] of [prisma.user.findUnique]. *)
Inductive UserWhere : Type :=
| ByEmail (email : string)
| ById (id : string).

(** The calls a handler makes outside the repository. *)
Inductive Call : Type :=
(** [prisma.user.findUnique({ where: { email } })] *)
| UserFindUnique (email : string)
(** [prisma.user.findUnique({ where, include: { notification_preferences: true } })] *)
| UserFindUniqueIncl (where_ : UserWhere)
(** [prisma.user.findUnique({ where: { id }, select: { id: true, updated_at: true } })] *)
| UserFindUniqueSelect (id : string)
(** [prisma.user.create({ data: { email, password, name,
      notification_preferences: { create: { email, push, sms } } }, include })] *)
| UserCreate (email password name : string) (pref_email pref_push pref_sms : bool)
(** [prisma.user.update({ where: { id }, data, include })] *)
| UserUpdate (id : string) (data : JsObj)
(** [prisma.notificationPreferences.upsert({ where: { user_id }, update, create })] *)
| PrefsUpsert (user_id : string) (update create : JsObj)
(** [bcrypt.hash(password, rounds)] *)
| BcryptHash (password : string) (rounds : nat)
(** [bcrypt.compare(password, hashed)] *)
| BcryptCompare (password hashed : string)
(** [jwt.sign({ user_id, email }, secret, { expiresIn })] *)
| JwtSign (user_id email : string) (secret : option string) (expires : string)
(** [jwt.verify(token, secret)] *)
| JwtVerify (token : string) (secret : option string).

(** What each call resolves to when it does not throw. *)
Definition Answer (c : Call) : Type :=
  match c with
  | UserFindUnique _ => option User
  | UserFindUniqueIncl _ => option UserIncl
  | UserFindUniqueSelect _ => option (string * Z)
  | UserCreate _ _ _ _ _ _ => UserIncl
  | UserUpdate _ _ => UserIncl
  | PrefsUpsert _ _ _ => Prefs
  | BcryptHash _ _ => string
  | BcryptCompare _ _ => bool
  | JwtSign _ _ _ _ => string
  | JwtVerify _ _ => Jwt.Claims
  end.

(** The calls that write to the database. *)
Definition is_write (c : Call) : bool :=
  match c with
  | UserCreate _ _ _ _ _ _ | UserUpdate _ _ | PrefsUpsert _ _ _ => true
  | _ => false
  end.

(** A handler: it returns, or it makes a call and goes on with the outcome,
    which is a value or a thrown error. *)
Inductive Prog (R : Type) : Type :=
| Ret (r : R)
| Do (c : Call) (k : Outcome (Answer c) -> Prog R).
Arguments Ret {R} r.
Arguments Do {R} c k.

(** [try { const a = await c; ...k a } catch (error) { ...handler error }],
    for the call itself. *)
Definition attempt {R : Type} (handler : JsError -> Prog R) (c : Call)
    (k : Answer c -> Prog R) : Prog R :=
  Do c (fun o => match o with Ok a => k a | Throw e => handler e end).

Fixpoint bind {A B : Type} (p : Prog A) (f : A -> Prog B) : Prog B :=
  match p with
  | Ret a => f a
  | Do c k => Do c (fun o => bind (k o) f)
  end.

(** One call with its outcome. *)
Record Event : Type := mkEvent {
  ev_call : Call;
  ev_outcome : Outcome (Answer ev_call)
}.

(** [every_run P p]: whatever the collaborators answer, [p] returns some [r]
    after a sequence of calls [tr] with [P tr r]. *)
Fixpoint every_run {R : Type} (P : list Event -> R -> Prop) (p : Prog R) : Prop :=
  match p with
  | Ret r => P [] r
  | Do c k => forall o, every_run (fun tr r => P (mkEvent c o :: tr) r) (k o)
  end.

(** The error, if any, that an event threw. *)
Definition thrown (ev : Event) : option JsError :=
  match ev_outcome ev with Ok _ => None | Throw e => Some e end.

Definition TypeError (message : string) : JsError :=
  mkError "TypeError" None message.

(** The first error thrown in a sequence of calls. *)
Fixpoint first_thrown (tr : list Event) : option JsError :=
  match tr with
  | [] => None
  | ev :: tr' =>
      match thrown ev with
      | Some e => Some e
      | None => first_thrown tr'
      end
  end.



(** The re-fetch of the account found no row. *)
Definition refetched_null (ev : Event) : bool :=
  match ev with
  | mkEvent c o =>
      match c return Outcome (Answer c) -> bool with
      | UserFindUniqueSelect _ =>
          fun o => match o with Ok None => true | _ => false end
      | _ => fun _ => false
      end o
  end.

(** The writes among a sequence of calls. *)
Definition writes (tr : list Event) : list Event :=
  filter (fun ev => is_write (ev_call ev)) tr.

(** Some object inside [v], at any depth, has an own property [k]. *)
Fixpoint mentions (k : string) (v : JsVal) : bool :=
  match v with
  | JObj props =>
      (fix among (ps : list (string * JsVal)) : bool :=
         match ps with
         | [] => false
         | (k', v') :: ps' => String.eqb k k' || mentions k v' || among ps'
         end) props
  | _ => false
  end.

(** ** plugins/auth.js *)

(** A request as the handlers read it: the [Authorization] header, the
    [:user_id] of the path, the JSON body of a PATCH, and [request.user],
    which [decorateRequest('user', null)] starts as [null]. *)
Record Request : Type := mkRequest {
  authorization : option string;
  param_user_id : string;
  body : JsObj;
  user : option Jwt.Claims
}.

Definition set_user (request : Request) (decoded : Jwt.Claims) : Request :=
  mkRequest (authorization request) (param_user_id request) (body request)
            (Some decoded).

Definition access_token_required : Reply :=
  mkReply 401 [("success", JBool false); ("message", JStr "Access token required")].

Definition invalid_or_expired_token : Reply :=
  mkReply 403 [("success", JBool false); ("message", JStr "Invalid or expired token")].

(** The bearer token of a header that starts with [Bearer ]. *)
Definition bearer_token (authHeader : string) : string := Str.from 7 authHeader.

(** [fastify.authenticate]: the reply it sends, or the request with
    [request.user] set. *)
Definition authenticate (env : Env) (request : Request) : Prog (Reply + Request) :=
  match authorization request with
  | None => Ret (inl access_token_required)
  | Some authHeader =>
      if Str.is_empty authHeader || negb (Str.startsWith "Bearer " authHeader)
      then Ret (inl access_token_required)
      else
        Do (JwtVerify (bearer_token authHeader) (JWT_SECRET env))
           (fun o => match o with
                     | Ok decoded => Ret (inr (set_user request decoded))
                     | Throw _ => Ret (inl invalid_or_expired_token)
                     end)
  end.

(** [fastify.generateToken(userId, email)]. *)
Definition generateToken (env : Env) (userId email : string) : Call :=
  JwtSign userId email (JWT_SECRET env) (expiresIn env).

(** A route with [onRequest: [fastify.authenticate]]: the handler runs only
    when the hook has not replied. *)
Definition onRequest_authenticate (env : Env) (handler : Request -> Prog Reply)
    (request : Request) : Prog Reply :=
  bind (authenticate env request)
       (fun r => match r with inl reply => Ret reply | inr request' => handler request' end).

(** ** routes/users.js *)

Record CreateUserBody : Type := mkCreateUserBody {
  cu_email : string;
  cu_password : string;
  cu_name : string
}.

Record LoginBody : Type := mkLoginBody {
  lg_email : string;
  lg_password : string
}.

(** The [catch] block shared by every route but PATCH /:user_id. *)
Definition internal_server_error (error : JsError) : Reply :=
  mkReply 500 (createResponse false "Internal server error" None (Some (err_message error))).

Definition email_already_exists : Reply :=
  mkReply 409 (createResponse false "User with this email already exists" None None).

Definition invalid_email_or_password : Reply :=
  mkReply 401 (createResponse false "Invalid email or password" None None).

Definition user_not_found : Reply :=
  mkReply 404 (createResponse false "User not found" None None).

(** [const { password: _, ...userWithoutPassword } = user]. *)
Definition userWithoutPassword (u : UserIncl) : JsObj := omit "password" (user_js u).

Definition user_and_token (u : UserIncl) (token : string) : JsVal :=
  JObj [("user", JObj (userWithoutPassword u)); ("token", JStr token)].

(** POST /api/v1/users/ *)
Definition post_users (env : Env) (b : CreateUserBody) : Prog Reply :=
  let catch := fun error => Ret (internal_server_error error) in
  attempt catch (UserFindUnique (cu_email b)) (fun existingUser =>
    match existingUser with
    | Some _ => Ret email_already_exists
    | None =>
        (* hashPassword(password) *)
        attempt catch (BcryptHash (cu_password b) Password.SALT_ROUNDS) (fun hashedPassword =>
        attempt catch (UserCreate (cu_email b) hashedPassword (cu_name b) true true false)
          (fun u =>
        attempt catch (generateToken env (u_id (fst u)) (u_email (fst u))) (fun token =>
          Ret (mkReply 201
                 (createResponse true "User created successfully"
                    (Some (user_and_token u token)) None)))))
    end).

(** POST /api/v1/users/login *)
Definition post_login (env : Env) (b : LoginBody) : Prog Reply :=
  let catch := fun error => Ret (internal_server_error error) in
  attempt catch (UserFindUniqueIncl (ByEmail (lg_email b))) (fun found =>
    match found with
    | None => Ret invalid_email_or_password
    | Some u =>
        (* comparePassword(password, user.password) *)
        attempt catch (BcryptCompare (lg_password b) (u_password (fst u)))
          (fun isPasswordValid =>
            if negb isPasswordValid then Ret invalid_email_or_password
            else
              attempt catch (generateToken env (u_id (fst u)) (u_email (fst u)))
                (fun token =>
                  Ret (mkReply 200
                         (createResponse true "Login successful"
                            (Some (user_and_token u token)) None))))
    end).

(** GET /api/v1/users/:user_id *)
Definition get_user (user_id : string) : Prog Reply :=
  let catch := fun error => Ret (internal_server_error error) in
  attempt catch (UserFindUniqueIncl (ById user_id)) (fun found =>
    match found with
    | None => Ret user_not_found
    | Some u =>
        Ret (mkReply 200
               (createResponse true "User profile retrieved successfully"
                  (Some (JObj (userWithoutPassword u))) None))
    end).

Definition only_your_own_profile : Reply :=
  mkReply 403 (createResponse false "You can only update your own profile" None None).

Definition only_your_own_preferences : Reply :=
  mkReply 403 (createResponse false "You can only update your own preferences" None None).

(** The [catch] block of PATCH /:user_id. *)
Definition patch_user_catch (error : JsError) : Reply :=
  match err_code error with
  | Some code => if String.eqb code "P2025" then user_not_found
                 else internal_server_error error
  | None => internal_server_error error
  end.

(** The handler of PATCH /api/v1/users/:user_id, after the hook. *)
Definition patch_user_handler (request : Request) : Prog Reply :=
  let user_id := param_user_id request in
  let updates := body request in
  let catch := fun error => Ret (patch_user_catch error) in
  match user request with
  | None => catch (TypeError "Cannot read properties of null (reading 'user_id')")
  | Some requester =>
      if negb (String.eqb (Jwt.c_user_id requester) user_id)
      then Ret only_your_own_profile
      else if no_keys updates
      then Ret (mkReply 400 (createResponse false "No valid fields to update" None None))
      else
        attempt catch (UserUpdate user_id updates) (fun u =>
          Ret (mkReply 200
                 (createResponse true "User updated successfully"
                    (Some (JObj (userWithoutPassword u))) None)))
  end.

Definition preferences_updated (id : string) (p : Prefs) (updated_at : Z) : Reply :=
  mkReply 200
    (createResponse true "Notification preferences updated successfully"
       (Some (JObj [("id", JStr id);
                    ("notification_preferences",
                       JObj [("email", JBool (np_email p));
                             ("push", JBool (np_push p));
                             ("sms", JBool (np_sms p))]);
                    ("updated_at", JDate updated_at)]))
       None).

(** The handler of PATCH /api/v1/users/:user_id/preferences, after the hook. *)
Definition patch_preferences_handler (request : Request) : Prog Reply :=
  let user_id := param_user_id request in
  let preferences := body request in
  let catch := fun error => Ret (internal_server_error error) in
  match user request with
  | None => catch (TypeError "Cannot read properties of null (reading 'user_id')")
  | Some requester =>
      if negb (String.eqb (Jwt.c_user_id requester) user_id)
      then Ret only_your_own_preferences
      else if no_keys preferences
      then Ret (mkReply 400 (createResponse false "No preferences provided to update" None None))
      else
        attempt catch
          (PrefsUpsert user_id preferences (spread [("user_id", JStr user_id)] preferences))
          (fun updatedPreferences =>
        attempt catch (UserFindUniqueSelect user_id) (fun found =>
          match found with
          | None => catch (TypeError "Cannot read properties of null (reading 'id')")
          | Some (id, updated_at) =>
              Ret (preferences_updated id updatedPreferences updated_at)
          end))
  end.

Definition patch_user (env : Env) : Request -> Prog Reply :=
  onRequest_authenticate env patch_user_handler.

Definition patch_preferences (env : Env) : Request -> Prog Reply :=
  onRequest_authenticate env patch_preferences_handler.

(** ** An in-memory database behind the Prisma client

    Two tables with the constraints of the schema: [users.email] and
    [notification_preferences.user_id] are unique, and a preferences row
    refers to an existing user.  Only the fields of the route schemas (and
    [email], [password]) are writable through [update]; any other key is
    answered with a validation error. *)

Module Store.

Record World : Type := mkWorld {
  users : list User;
  prefs : list Prefs;
  now : Z;                    (* Date.now(), milliseconds *)
  entropy : nat -> string;    (* the salts bcrypt.genSalt will draw *)
  drawn : nat;
  fresh : nat;                (* identifiers handed out so far *)
  db_up : bool                (* the database answers *)
}.

Definition with_tables (w : World) (us : list User) (ps : list Prefs) (n : nat) : World :=
  mkWorld us ps (now w) (entropy w) (drawn w) n (db_up w).

Definition fresh_id (n : nat) : string :=
  "id-" ++ NilEmpty.string_of_uint (Nat.to_uint n).

Definition find_by_email (email : string) (us : list User) : option User :=
  find (fun u => String.eqb (u_email u) email) us.

Definition find_by_id (id : string) (us : list User) : option User :=
  find (fun u => String.eqb (u_id u) id) us.

Definition find_prefs (user_id : string) (ps : list Prefs) : option Prefs :=
  find (fun p => String.eqb (np_user_id p) user_id) ps.

Definition find_where (where_ : UserWhere) (us : list User) : option User :=
  match where_ with
  | ByEmail email => find_by_email email us
  | ById id => find_by_id id us
  end.

Definition include_prefs (w : World) (u : User) : UserIncl :=
  (u, find_prefs (u_id u) (prefs w)).

Definition PrismaError (code message : string) : JsError :=
  mkError "PrismaClientKnownRequestError" (Some code) message.

Definition ValidationError : JsError :=
  mkError "PrismaClientValidationError" None "Invalid invocation: unknown argument".

Definition Unreachable : JsError :=
  mkError "PrismaClientInitializationError" (Some "P1001") "Can't reach database server".

Definition P2002 : JsError :=
  PrismaError "P2002" "Unique constraint failed on the fields: (`email`)".

Definition P2025 : JsError :=
  PrismaError "P2025" "Record to update not found.".

Definition P2003 : JsError :=
  PrismaError "P2003" "Foreign key constraint failed on the field: `user_id`".

(** [prisma.user.create] with the nested create of the preferences: one
    transaction, both rows or none. *)
Definition user_create (w : World) (email password name : string)
    (pe pp ps : bool) : Outcome UserIncl * World :=
  match find_by_email email (users w) with
  | Some _ => (Throw P2002, w)
  | None =>
      let u := mkUser (fresh_id (fresh w)) email password name None (now w) (now w) in
      let p := mkPrefs (fresh_id (S (fresh w))) (u_id u) pe pp ps in
      (Ok (u, Some p),
       with_tables w (users w ++ [u]) (prefs w ++ [p]) (S (S (fresh w))))
  end.

Definition set_user_field (u : User) (kv : string * JsVal) : option User :=
  match kv with
  | ("name", JStr s) =>
      Some (mkUser (u_id u) (u_email u) (u_password u) s (u_push_token u)
                   (u_created_at u) (u_updated_at u))
  | ("push_token", JStr s) =>
      Some (mkUser (u_id u) (u_email u) (u_password u) (u_name u) (Some s)
                   (u_created_at u) (u_updated_at u))
  | ("push_token", JNull) =>
      Some (mkUser (u_id u) (u_email u) (u_password u) (u_name u) None
                   (u_created_at u) (u_updated_at u))
  | ("email", JStr s) =>
      Some (mkUser (u_id u) s (u_password u) (u_name u) (u_push_token u)
                   (u_created_at u) (u_updated_at u))
  | ("password", JStr s) =>
      Some (mkUser (u_id u) (u_email u) s (u_name u) (u_push_token u)
                   (u_created_at u) (u_updated_at u))
  | _ => None
  end.

Fixpoint set_user_fields (u : User) (data : JsObj) : option User :=
  match data with
  | [] => Some u
  | kv :: data' =>
      match set_user_field u kv with
      | Some u' => set_user_fields u' data'
      | None => None
      end
  end.

Definition touch (u : User) (t : Z) : User :=
  mkUser (u_id u) (u_email u) (u_password u) (u_name u) (u_push_token u)
         (u_created_at u) t.

Definition replace_user (u' : User) (us : list User) : list User :=
  map (fun u => if String.eqb (u_id u) (u_id u') then u' else u) us.

(** [prisma.user.update]: [updated_at] carries [@updatedAt]. *)
Definition user_update (w : World) (id : string) (data : JsObj)
    : Outcome UserIncl * World :=
  match find_by_id id (users w) with
  | None => (Throw P2025, w)
  | Some u =>
      match set_user_fields u data with
      | None => (Throw ValidationError, w)
      | Some u1 =>
          let taken :=
            match find_by_email (u_email u1) (users w) with
            | Some other => negb (String.eqb (u_id other) id)
            | None => false
            end in
          if taken then (Throw P2002, w)
          else
            let u2 := touch u1 (now w) in
            (Ok (include_prefs w u2),
             with_tables w (replace_user u2 (users w)) (prefs w) (fresh w))
      end
  end.

Definition set_pref_field (p : Prefs) (kv : string * JsVal) : option Prefs :=
  match kv with
  | ("email", JBool b) => Some (mkPrefs (np_id p) (np_user_id p) b (np_push p) (np_sms p))
  | ("push", JBool b) => Some (mkPrefs (np_id p) (np_user_id p) (np_email p) b (np_sms p))
  | ("sms", JBool b) => Some (mkPrefs (np_id p) (np_user_id p) (np_email p) (np_push p) b)
  | _ => None
  end.

Fixpoint set_pref_fields (p : Prefs) (data : JsObj) : option Prefs :=
  match data with
  | [] => Some p
  | kv :: data' =>
      match set_pref_field p kv with
      | Some p' => set_pref_fields p' data'
      | None => None
      end
  end.

Definition replace_prefs (p' : Prefs) (ps : list Prefs) : list Prefs :=
  map (fun p => if String.eqb (np_user_id p) (np_user_id p') then p' else p) ps.

(** [prisma.notificationPreferences.upsert]: updates the row of the user
    when there is one, else inserts the [create] object over the column
    defaults ([true], [true], [false]). *)
Definition prefs_upsert (w : World) (user_id : string) (update create : JsObj)
    : Outcome Prefs * World :=
  match find_prefs user_id (prefs w) with
  | Some p =>
      match set_pref_fields p update with
      | None => (Throw ValidationError, w)
      | Some p' =>
          (Ok p', with_tables w (users w) (replace_prefs p' (prefs w)) (fresh w))
      end
  | None =>
      match get_prop "user_id" create with
      | Some (JStr owner) =>
          match set_pref_fields (mkPrefs (fresh_id (fresh w)) owner true true false)
                                (omit "user_id" create) with
          | None => (Throw ValidationError, w)
          | Some p' =>
              match find_by_id owner (users w) with
              | None => (Throw P2003, w)
              | Some _ =>
                  (Ok p', with_tables w (users w) (prefs w ++ [p']) (S (fresh w)))
              end
          end
      | _ => (Throw ValidationError, w)
      end
  end.

Definition select_id_updated_at (u : User) : string * Z := (u_id u, u_updated_at u).

Section WithLibs.

Variable L : Libs.

(** What a call does to the world and how it is answered. *)
Definition perform (w : World) (c : Call) : Outcome (Answer c) * World :=
  match c return Outcome (Answer c) * World with
  | UserFindUnique email =>
      if db_up w then (Ok (find_by_email email (users w)), w)
      else (Throw Unreachable, w)
  | UserFindUniqueIncl where_ =>
      if db_up w
      then (Ok (option_map (include_prefs w) (find_where where_ (users w))), w)
      else (Throw Unreachable, w)
  | UserFindUniqueSelect id =>
      if db_up w
      then (Ok (option_map select_id_updated_at (find_by_id id (users w))), w)
      else (Throw Unreachable, w)
  | UserCreate email password name pe pp ps =>
      if db_up w then user_create w email password name pe pp ps
      else (Throw Unreachable, w)
  | UserUpdate id data =>
      if db_up w then user_update w id data else (Throw Unreachable, w)
  | PrefsUpsert user_id update create =>
      if db_up w then prefs_upsert w user_id update create
      else (Throw Unreachable, w)
  | BcryptHash password rounds =>
      (Ok (Password.bcrypt_hash (bcrypt_core L) (entropy w (drawn w)) password rounds),
       mkWorld (users w) (prefs w) (now w) (entropy w) (S (drawn w)) (fresh w) (db_up w))
  | BcryptCompare password hashed =>
      (Ok (Password.bcrypt_compare (bcrypt_core L) password hashed), w)
  | JwtSign user_id email secret expires =>
      (Jwt.sign (hmac L) (jws_render L) (ms L) (now w / 1000) user_id email secret expires, w)
  | JwtVerify token secret =>
      (Jwt.verify (hmac L) (jws_parse L) (now w / 1000) token secret, w)
  end.

(** Runs a handler to its reply. *)
Fixpoint exec {R : Type} (w : World) (p : Prog R) : R * World :=
  match p with
  | Ret r => (r, w)
  | Do c k => let (o, w') := perform w c in exec w' (k o)
  end.

(** The calls of that run, with their outcomes. *)
Fixpoint trace {R : Type} (w : World) (p : Prog R) : list Event :=
  match p with
  | Ret _ => []
  | Do c k => let (o, w') := perform w c in mkEvent c o :: trace w' (k o)
  end.



End WithLibs.

End Store.

(** ** A small instance of the packages, for running the service *)

Module Toy.

(** A number [n] in unary, ended by a dot. *)
Definition enc_nat (n : nat) : string := Str.replicate n "|"%char ++ ".".

Fixpoint dec_nat (s : string) : option (nat * string) :=
  match s with
  | String c s' =>
      if Ascii.eqb c "|"%char
      then match dec_nat s' with
           | Some (n, rest) => Some (S n, rest)
           | None => None
           end
      else if Ascii.eqb c "."%char then Some (0, s')
      else None
  | EmptyString => None
  end.

(** A string, preceded by its length. *)
Definition enc_str (s : string) : string := enc_nat (String.length s) ++ s.

Definition dec_str (s : string) : option (string * string) :=
  match dec_nat s with
  | Some (n, rest) => Some (Str.take n rest, Str.from n rest)
  | None => None
  end.

Definition enc_Z (z : Z) : string := enc_str (NilEmpty.string_of_int (Z.to_int z)).

Definition dec_Z (s : string) : option (Z * string) :=
  match dec_str s with
  | Some (digits, rest) =>
      match NilEmpty.int_of_string digits with
      | Some d => Some (Z.of_int d, rest)
      | None => None
      end
  | None => None
  end.

Definition render (j : Jwt.Jws) : string :=
  enc_str (Jwt.c_user_id (Jwt.jws_payload j)) ++
  enc_str (Jwt.c_email (Jwt.jws_payload j)) ++
  enc_Z (Jwt.c_iat (Jwt.jws_payload j)) ++
  enc_Z (Jwt.c_exp (Jwt.jws_payload j)) ++
  enc_str (Jwt.jws_signature j).

Definition parse (s : string) : option Jwt.Jws :=
  match dec_str s with
  | Some (uid, s1) =>
    match dec_str s1 with
    | Some (mail, s2) =>
      match dec_Z s2 with
      | Some (iat, s3) =>
        match dec_Z s3 with
        | Some (exp, s4) =>
          match dec_str s4 with
          | Some (sig, EmptyString) =>
              Some (Jwt.mkJws (Jwt.mkClaims uid mail iat exp) sig)
          | _ => None
          end
        | None => None
        end
      | None => None
      end
    | None => None
    end
  | None => None
  end.

Definition hmac (key : string) (c : Jwt.Claims) : string :=
  key ++ "/" ++ Jwt.c_user_id c ++ "/" ++ Jwt.c_email c.

Definition ms (span : string) : option Z :=
  if String.eqb span "7d" then Some 604800000%Z
  else if String.eqb span "1h" then Some 3600000%Z
  else None.

Definition libs : Libs :=
  mkLibs (fun _ _ key => key) hmac render parse ms.

Definition salt : string := Str.replicate 22 "s"%char.

Definition env : Env := mkEnv (Some "secret") None.

(** An empty database when the clock reads [t] milliseconds. *)
Definition at_time (t : Z) : Store.World :=
  Store.mkWorld [] [] t (fun _ => salt) 0 0 true.

(** An empty database at time 1000 s. *)
Definition empty : Store.World := at_time 1000000.

(** The same database at another time. *)
Definition later (w : Store.World) (t : Z) : Store.World :=
  Store.mkWorld (Store.users w) (Store.prefs w) t (Store.entropy w)
                (Store.drawn w) (Store.fresh w) (Store.db_up w).

Definition bearer (token : string) : Request :=
  mkRequest (Some ("Bearer " ++ token)) "id-0" [] None.

Definition alice : CreateUserBody := mkCreateUserBody "a@b.com" "password123" "A".

(** The database after Alice has registered. *)
Definition with_alice : Store.World := snd (Store.exec libs empty (post_users env alice)).

Definition alice_claims : Jwt.Claims := Jwt.mkClaims "id-0" "a@b.com" 1000%Z 605800%Z.

Definition mallory_claims : Jwt.Claims := Jwt.mkClaims "id-7" "m@b.com" 1000%Z 605800%Z.

(** Alice's token, and one for her claims signed with another key. *)
Definition good_token : string :=
  render (Jwt.mkJws alice_claims (hmac "secret" alice_claims)).

Definition forged_token : string :=
  render (Jwt.mkJws alice_claims (hmac "guess" alice_claims)).

Definition patch_request (requester : Jwt.Claims) (target : string) (b : JsObj) : Request :=
  mkRequest None target b (Some requester).

End Toy.

(** ** Observers of runs *)

(** The calls of a run, in order. *)
Definition calls (tr : list Event) : list Call := map ev_call tr.

(** Calls that go to the database. *)
Definition is_database (c : Call) : bool :=
  match c with
  | UserFindUnique _ | UserFindUniqueIncl _ | UserFindUniqueSelect _
  | UserCreate _ _ _ _ _ _ | UserUpdate _ _ | PrefsUpsert _ _ _ => true
  | _ => false
  end.

Definition database_calls (tr : list Event) : list Call :=
  filter is_database (calls tr).

(** The event is a token verification that succeeded. *)
Definition verified (ev : Event) : bool :=
  match ev_call ev with
  | JwtVerify _ _ => match thrown ev with None => true | Some _ => false end
  | _ => false
  end.

(** The event is a lookup of a user that found no row. *)
Definition found_nothing (ev : Event) : bool :=
  match ev with
  | mkEvent c o =>
      match c return Outcome (Answer c) -> bool with
      | UserFindUnique _ => fun o => match o with Ok None => true | _ => false end
      | UserFindUniqueIncl _ => fun o => match o with Ok None => true | _ => false end
      | _ => fun _ => false
      end o
  end.

(** What [bcrypt.hash] answered in a run. *)
Definition hash_answer (ev : Event) : option string :=
  match ev with
  | mkEvent c o =>
      match c return Outcome (Answer c) -> option string with
      | BcryptHash _ _ => fun o => match o with Ok h => Some h | Throw _ => None end
      | _ => fun _ => None
      end o
  end.

(** The [password] given to [prisma.user.create]. *)
Definition created_password (c : Call) : option string :=
  match c with
  | UserCreate _ password _ _ _ _ => Some password
  | _ => None
  end.

(** The plaintext passwords handed to bcrypt. *)
Definition bcrypt_input (c : Call) : option string :=
  match c with
  | BcryptHash password _ => Some password
  | BcryptCompare password _ => Some password
  | _ => None
  end.

Fixpoint pick {A B : Type} (f : A -> option B) (l : list A) : list B :=
  match l with
  | [] => []
  | a :: l' => match f a with Some b => b :: pick f l' | None => pick f l' end
  end.


(** [o[k]] when a key may occur more than once: the last occurrence. *)
Fixpoint get_last (k : string) (o : JsObj) : option JsVal :=
  match o with
  | [] => None
  | (k', v) :: o' =>
      match get_last k o' with
      | Some v' => Some v'
      | None => if String.eqb k k' then Some v else None
      end
  end.


(** ** The store after a registration *)

Module Registered.

Section WithLibs.

Variable L : Libs.

(** The rows that a registration of [b] adds to [w]. *)
Definition new_user (w : Store.World) (b : CreateUserBody) : User :=
  mkUser (Store.fresh_id (Store.fresh w)) (cu_email b)
    (Password.hashPassword (bcrypt_core L) (Store.entropy w (Store.drawn w))
       (cu_password b))
    (cu_name b) None (Store.now w) (Store.now w).

Definition new_prefs (w : Store.World) : Prefs :=
  mkPrefs (Store.fresh_id (S (Store.fresh w))) (Store.fresh_id (Store.fresh w))
    true true false.

(** The store with those rows. *)
Definition world (w : Store.World) (b : CreateUserBody) : Store.World :=
  Store.mkWorld (Store.users w ++ [new_user w b]) (Store.prefs w ++ [new_prefs w])
    (Store.now w) (Store.entropy w) (S (Store.drawn w)) (S (S (Store.fresh w)))
    (Store.db_up w).

(** The token that [generateToken] makes for the new account at the time of
    [w]. *)
Definition token (env : Env) (key : string) (span : Z) (w : Store.World)
    (b : CreateUserBody) : string :=
  let claims :=
    Jwt.mkClaims (Store.fresh_id (Store.fresh w)) (cu_email b)
      (Store.now w / 1000) (Store.now w / 1000 + span / 1000) in
  jws_render L (Jwt.mkJws claims (hmac L key claims)).

(** The same store when the clock reads [t]. *)
Definition at_clock (w : Store.World) (t : Z) : Store.World :=
  Store.mkWorld (Store.users w) (Store.prefs w) t (Store.entropy w)
    (Store.drawn w) (Store.fresh w) (Store.db_up w).

(** What a new registration needs: the database answers, no account has the
    email, the identifier about to be handed out is in use in neither
    table, and the secret and the life time of tokens are configured. *)
Definition ready (env : Env) (key : string) (span : Z) (w : Store.World)
    (b : CreateUserBody) : Prop :=
  Store.db_up w = true /\
  Store.find_by_email (cu_email b) (Store.users w) = None /\
  Store.find_by_id (Store.fresh_id (Store.fresh w)) (Store.users w) = None /\
  Store.find_prefs (Store.fresh_id (Store.fresh w)) (Store.prefs w) = None /\
  JWT_SECRET env = Some key /\ Str.is_empty key = false /\
  ms L (expiresIn env) = Some span.

End WithLibs.

End Registered.

(** ** shared-response.js with all its parameters *)

Module SharedResponse.

(** [createResponse(success, message, data, error, meta)]: [None] stands for
    an argument that is [undefined]. *)
Definition createResponse (success : bool) (message : string)
    (data error meta : option JsVal) : JsObj :=
  ([("success", JBool success); ("message", JStr message)]
   ++ match data with Some d => [("data", d)] | None => [] end
   ++ match error with Some e => [("error", e)] | None => [] end
   ++ match meta with Some m => [("meta", m)] | None => [] end)%list.

End SharedResponse.

(** ** JavaScript built-ins the service configures itself with *)

Module Js.

(** [v || d] on a string that may be [undefined]: the empty string is
    falsy. *)
Definition or_else (v : option string) (d : string) : string :=
  match v with
  | Some s => if Str.is_empty s then d else s
  | None => d
  end.

Definition is_digit (c : ascii) : bool :=
  Nat.leb 48 (nat_of_ascii c) && Nat.leb (nat_of_ascii c) 57.

Definition digit_of (c : ascii) : Z := Z.of_nat (nat_of_ascii c - 48).

(** The white space of ASCII: TAB, LF, VT, FF, CR and the space. *)
Definition is_white (c : ascii) : bool :=
  let n := nat_of_ascii c in
  (Nat.leb 9 n && Nat.leb n 13) || Nat.eqb n 32.

Fixpoint skip_white (s : string) : string :=
  match s with
  | String c s' => if is_white c then skip_white s' else s
  | EmptyString => s
  end.

(** The number that the leading decimal digits of [s] denote, after [acc]. *)
Fixpoint digits_value (acc : Z) (s : string) : Z :=
  match s with
  | String c s' => if is_digit c then digits_value (10 * acc + digit_of c) s' else acc
  | EmptyString => acc
  end.

Definition starts_with_digit (s : string) : bool :=
  match s with
  | String c _ => is_digit c
  | EmptyString => false
  end.

(** [parseInt(s, 10)]; [None] stands for [NaN].  Leading white space is
    skipped, one sign is read, then the longest run of decimal digits; what
    follows is ignored.  (Exact, where JavaScript rounds above 2^53.) *)
Definition parseInt (s : string) : option Z :=
  let s1 := skip_white s in
  let signed :=
    match s1 with
    | String c rest =>
        if Ascii.eqb c "-"%char then (true, rest)
        else if Ascii.eqb c "+"%char then (false, rest)
        else (false, s1)
    | EmptyString => (false, s1)
    end in
  if starts_with_digit (snd signed)
  then Some (if fst signed then (- digits_value 0 (snd signed))%Z
             else digits_value 0 (snd signed))
  else None.

(** A number in a template literal. *)
Definition number_string (n : option Z) : string :=
  match n with
  | Some z => NilEmpty.string_of_int (Z.to_int z)
  | None => "NaN"
  end.

(** The truthiness of a value. *)
Definition truthy (v : JsVal) : bool :=
  match v with
  | JNull => false
  | JBool b => b
  | JNum n => negb (Z.eqb n 0)
  | JStr s => negb (Str.is_empty s)
  | JDate _ => true
  | JObj _ => true
  end.

End Js.

(** ** plugins/correlation-id.js *)

Module CorrelationId.

(** What the hook leaves behind: [request.correlationId], the
    [x-correlation-id] header of the reply, and the [correlation_id] bound
    to the child logger. *)
Record Tagged : Type := mkTagged {
  request_correlationId : string;
  reply_header : string;
  log_correlation_id : string
}.

(** The [onRequest] hook, given the header of the request and the UUID that
    [randomUUID()] returns when it is called. *)
Definition onRequest (header : option string) (uuid : string) : Tagged :=
  let correlationId := Js.or_else header uuid in
  mkTagged correlationId correlationId correlationId.

End CorrelationId.

(** ** index.js: the handlers of the server *)

Module Server.

(** An error as the error handler reads it. *)
Record FastifyError : Type := mkFastifyError {
  fe_validation : option JsVal;
  fe_code : option string;
  fe_statusCode : option nat;
  fe_message : string
}.

Definition notFoundHandler : Reply :=
  mkReply 404 [("success", JBool false); ("message", JStr "Route not found")].

(** [error.code?.startsWith('P')]. *)
Definition prisma_coded (error : FastifyError) : bool :=
  match fe_code error with
  | Some code => Str.startsWith "P" code
  | None => false
  end.

(** [error.statusCode || 500]. *)
Definition status_or_500 (error : FastifyError) : nat :=
  match fe_statusCode error with
  | Some 0 => 500
  | Some n => n
  | None => 500
  end.

(** [error.validation] when it is truthy. *)
Definition validation_errors (error : FastifyError) : option JsVal :=
  match fe_validation error with
  | Some validation => if Js.truthy validation then Some validation else None
  | None => None
  end.

(** [fastify.setErrorHandler]'s handler. *)
Definition errorHandler (error : FastifyError) : Reply :=
  match validation_errors error with
  | Some validation =>
      mkReply 400 [("success", JBool false); ("message", JStr "Validation failed");
                   ("errors", validation)]
  | None =>
      if prisma_coded error
      then mkReply 400 [("success", JBool false); ("message", JStr "Database error");
                        ("error", JStr (fe_message error))]
      else mkReply (status_or_500 error)
             [("success", JBool false);
              ("message", JStr (Js.or_else (Some (fe_message error)) "Internal server error"))]
  end.

End Server.

(** ** plugins/consul.js, plugins/prisma.js and the start of index.js *)

Module Ops.

(** [process.env], as far as these files read it. *)
Record ProcessEnv : Type := mkProcessEnv {
  CONSUL_HOST : option string;
  CONSUL_PORT : option string;
  PORT : option string;
  HOST : option string
}.

Record Check : Type := mkCheck {
  http : string;
  interval : string;
  timeout : string;
  deregistercriticalserviceafter : string
}.

Record ServiceConfig : Type := mkServiceConfig {
  name : string;
  id : string;
  address : string;
  port : option Z;
  tags : list string;
  check : Check
}.

(** An entry of the registry of the Consul agent; [Tags] may be missing. *)
Record ServiceEntry : Type := mkServiceEntry {
  ID : string;
  Service : string;
  Address : string;
  Port : option Z;
  Tags : option (list string)
}.

Definition consulHost (env : ProcessEnv) : string := Js.or_else (CONSUL_HOST env) "localhost".


Definition servicePort (env : ProcessEnv) : option Z :=
  Js.parseInt (Js.or_else (PORT env) "3001").

Definition serviceName : string := "user-service".

(** [`${serviceName}-${hostname}-${instanceId}`]. *)
Definition serviceId (hostname instanceId : string) : string :=
  serviceName ++ "-" ++ hostname ++ "-" ++ instanceId.

(** [`http://${host}:${port}/health`]. *)
Definition health_url (host : string) (port : option Z) : string :=
  "http://" ++ host ++ ":" ++ Js.number_string port ++ "/health".

Definition serviceConfig (env : ProcessEnv) (hostname instanceId : string) : ServiceConfig :=
  mkServiceConfig serviceName (serviceId hostname instanceId)
    (Js.or_else (HOST env) "localhost") (servicePort env)
    ["user-service"; "api"]
    (mkCheck (health_url (Js.or_else (HOST env) "localhost") (servicePort env))
       "10s" "5s" "30s").

(** The calls of these files to what is outside the repository. *)
Inductive Call : Type :=
(** [prisma.$connect()] *)
| PrismaConnect
(** [consulClient.agent.service.register(config)] *)
| ConsulRegister (config : ServiceConfig)
(** [consulClient.agent.service.deregister(id)] *)
| ConsulDeregister (service_id : string)
(** [consulClient.status.leader()] *)
| ConsulLeader
(** [consulClient.agent.service.list()] *)
| ConsulList
(** [consulClient.health.service({ service, passing: true })] *)
| ConsulHealthy (service : string)
(** [fastify.listen({ port, host })] *)
| Listen (listen_port : option Z) (listen_host : string)
(** [createTestServer()] and the import of the plugin, in test-consul.js *)
| CreateTestServer.

Definition Answer (c : Call) : Type :=
  match c with
  | ConsulLeader => string
  | ConsulList => list (string * ServiceEntry)
  | ConsulHealthy _ => list ServiceEntry
  | _ => unit
  end.

(** A script: it ends, or it makes a call and goes on with the outcome. *)
Inductive Script (R : Type) : Type :=
| Done (r : R)
| Ask (c : Call) (k : Outcome (Answer c) -> Script R).
Arguments Done {R} r.
Arguments Ask {R} c k.

Fixpoint andThen {A B : Type} (p : Script A) (f : A -> Script B) : Script B :=
  match p with
  | Done a => f a
  | Ask c k => Ask c (fun o => andThen (k o) f)
  end.

Record Event : Type := mkEvent {
  ev_call : Call;
  ev_outcome : Outcome (Answer ev_call)
}.

(** [always P p]: whatever is answered, [p] ends with some [r] after a
    sequence of calls [tr] with [P tr r]. *)
Fixpoint always {R : Type} (P : list Event -> R -> Prop) (p : Script R) : Prop :=
  match p with
  | Done r => P [] r
  | Ask c k => forall o, always (fun tr r => P (mkEvent c o :: tr) r) (k o)
  end.

Definition calls (tr : list Event) : list Call := map ev_call tr.

Definition threw (ev : Event) : bool :=
  match ev_outcome ev with Ok _ => false | Throw _ => true end.

(** The calls of a run that threw, and those that did not. *)
Definition failed (tr : list Event) : list Call := calls (filter threw tr).
Definition succeeded (tr : list Event) : list Call :=
  calls (filter (fun ev => negb (threw ev)) tr).

(** Runs a script against an oracle that answers each call. *)
Fixpoint run {R : Type} (oracle : forall c, Outcome (Answer c)) (p : Script R)
    : list Event * R :=
  match p with
  | Done r => ([], r)
  | Ask c k =>
      let (tr, r) := run oracle (k (oracle c)) in
      (mkEvent c (oracle c) :: tr, r)
  end.

Definition unreachable : JsError := mkError "Error" (Some "ECONNREFUSED") "connect ECONNREFUSED".

(** Everything answers, and the registry of Consul is empty. *)
Definition all_up (c : Call) : Outcome (Answer c) :=
  match c return Outcome (Answer c) with
  | ConsulLeader => Ok "127.0.0.1:8300"
  | ConsulList => Ok []
  | ConsulHealthy _ => Ok []
  | PrismaConnect => Ok tt
  | ConsulRegister _ => Ok tt
  | ConsulDeregister _ => Ok tt
  | Listen _ _ => Ok tt
  | CreateTestServer => Ok tt
  end.

(** The agent of Consul is not reachable; the rest answers. *)
Definition consul_down (c : Call) : Outcome (Answer c) :=
  match c return Outcome (Answer c) with
  | ConsulLeader => Throw unreachable
  | ConsulList => Throw unreachable
  | ConsulHealthy _ => Throw unreachable
  | ConsulRegister _ => Throw unreachable
  | ConsulDeregister _ => Throw unreachable
  | PrismaConnect => Ok tt
  | Listen _ _ => Ok tt
  | CreateTestServer => Ok tt
  end.


(** *** plugins/prisma.js *)

(** [prismaPlugin]: it connects, and rethrows when that fails. *)
Definition prismaPlugin : Script (Outcome unit) :=
  Ask PrismaConnect (fun o =>
    match o with
    | Ok _ => Done (Ok tt)
    | Throw error => Done (Throw error)
    end).

(** *** plugins/consul.js *)

(** [register]: rethrows when the registration fails. *)
Definition register (config : ServiceConfig) : Script (Outcome unit) :=
  Ask (ConsulRegister config) (fun o =>
    match o with
    | Ok _ => Done (Ok tt)
    | Throw error => Done (Throw error)
    end).

(** [deregister]: does not rethrow, so that a shutdown goes on. *)
Definition deregister (service_id : string) : Script unit :=
  Ask (ConsulDeregister service_id) (fun _ => Done tt).

(** [consulPlugin]: registers on startup, and goes on when that fails. *)
Definition consulPlugin (env : ProcessEnv) (hostname instanceId : string)
    : Script (Outcome unit) :=
  andThen (register (serviceConfig env hostname instanceId)) (fun r =>
    match r with
    | Ok _ => Done (Ok tt)
    | Throw _ => Done (Ok tt)
    end).

(** The [onClose] hook of the plugin. *)
Definition consul_onClose (hostname instanceId : string) : Script unit :=
  deregister (serviceId hostname instanceId).

(** *** index.js *)

(** How the start of the process ends: the server listens, the process
    exits with a code, or a top-level [await] rejects. *)
Inductive Process : Type :=
| Listening
| Exited (code : nat)
| Rejected (error : JsError).

(** [start()]. *)
Definition start (env : ProcessEnv) : Script Process :=
  Ask (Listen (servicePort env) (Js.or_else (HOST env) "0.0.0.0")) (fun o =>
    match o with
    | Ok _ => Done Listening
    | Throw _ => Done (Exited 1)
    end).

(** The module, from the registration of the plugins that call out to
    [start()]. *)
Definition main (env : ProcessEnv) (hostname instanceId : string) : Script Process :=
  andThen prismaPlugin (fun connected =>
    match connected with
    | Throw error => Done (Rejected error)
    | Ok _ =>
        andThen (consulPlugin env hostname instanceId) (fun registered =>
          match registered with
          | Throw error => Done (Rejected error)
          | Ok _ => start env
          end)
    end).

End Ops.

(** ** test-consul.js *)

Module ConsulTest.
Import Ops.

Definition serviceName : string := "user-service-test".

Definition serviceId (hostname instanceId : string) : string :=
  serviceName ++ "-" ++ hostname ++ "-" ++ instanceId.

Definition serviceConfig (env : ProcessEnv) (hostname instanceId : string) : ServiceConfig :=
  mkServiceConfig serviceName (serviceId hostname instanceId)
    (Js.or_else (HOST env) "localhost") (servicePort env)
    ["user-service"; "api"; "test"]
    (mkCheck (health_url (Js.or_else (HOST env) "localhost") (servicePort env))
       "10s" "5s" "30s").

(** [services[serviceId]]; [None] stands for [undefined]. *)
Fixpoint lookup (service_id : string) (services : list (string * ServiceEntry))
    : option ServiceEntry :=
  match services with
  | [] => None
  | (k, entry) :: services' =>
      if String.eqb service_id k then Some entry else lookup service_id services'
  end.

Definition testConsulConnection : Script bool :=
  Ask ConsulLeader (fun o =>
    match o with
    | Ok _ => Done true
    | Throw _ => Done false
    end).

Definition testServiceRegistration (config : ServiceConfig) : Script bool :=
  Ask (ConsulRegister config) (fun o =>
    match o with
    | Ok _ => Done true
    | Throw _ => Done false
    end).

(** The log line of the tags reads [registeredService.Tags.join]: without
    [Tags] it throws, and the [catch] returns [false]. *)
Definition testServiceDiscovery (service_id : string) : Script bool :=
  Ask ConsulList (fun o =>
    match o with
    | Throw _ => Done false
    | Ok services =>
        match lookup service_id services with
        | None => Done false
        | Some registeredService =>
            match Tags registeredService with
            | None => Done false
            | Some _ =>
                Ask (ConsulHealthy serviceName) (fun o =>
                  match o with
                  | Throw _ => Done false
                  | Ok serviceInstances =>
                      Done (negb (Nat.eqb (List.length serviceInstances) 0))
                  end)
            end
        end
    end).

Definition testServiceDeregistration (service_id : string) : Script bool :=
  Ask (ConsulDeregister service_id) (fun o =>
    match o with
    | Throw _ => Done false
    | Ok _ =>
        Ask ConsulList (fun o =>
          match o with
          | Throw _ => Done false
          | Ok services =>
              match lookup service_id services with
              | Some _ => Done false
              | None => Done true
              end
          end)
    end).

(** [testConsulPlugin]: registers the plugin of the service on a fresh
    server, checks the three decorations, which the plugin always sets, and
    closes the server, which runs the [onClose] hook of the plugin. *)
Definition testConsulPlugin (env : ProcessEnv) (hostname pluginInstanceId : string)
    : Script bool :=
  Ask CreateTestServer (fun o =>
    match o with
    | Throw _ => Done false
    | Ok _ =>
        andThen (consulPlugin env hostname pluginInstanceId) (fun registered =>
          match registered with
          | Throw _ => Done false
          | Ok _ =>
              andThen (consul_onClose hostname pluginInstanceId) (fun _ => Done true)
          end)
    end).

Record Results : Type := mkResults {
  consulConnection : bool;
  serviceRegistration : bool;
  serviceDiscovery : bool;
  serviceDeregistration : bool;
  consulPluginOk : bool
}.

(** [Object.values(results).every(result => result === true)]. *)
Definition allPassed (results : Results) : bool :=
  consulConnection results && serviceRegistration results &&
  serviceDiscovery results && serviceDeregistration results &&
  consulPluginOk results.

(** [runTests()]: the results and the exit code of the process. *)
Definition runTests (env : ProcessEnv) (hostname instanceId pluginInstanceId : string)
    : Script (Results * nat) :=
  let finish := fun (c r d x : bool) =>
    andThen (testConsulPlugin env hostname pluginInstanceId) (fun p =>
      let results := mkResults c r d x p in
      Done (results, if allPassed results then 0 else 1)) in
  andThen testConsulConnection (fun c =>
    if c then
      andThen (testServiceRegistration (serviceConfig env hostname instanceId)) (fun r =>
        if r then
          andThen (testServiceDiscovery (serviceId hostname instanceId)) (fun d =>
          andThen (testServiceDeregistration (serviceId hostname instanceId)) (fun x =>
            finish c r d x))
        else finish c r false false)
    else finish c false false false).

End ConsulTest.

(** * Facts *)

(** ** Strings *)

Module StrFacts.

Lemma substring_all (s : string) : substring 0 (String.length s) s = s.
Proof. induction s as [|c s IH]; simpl; [reflexivity | now rewrite IH]. Qed.

Lemma substring_0_0 (s : string) : substring 0 0 s = EmptyString.
Proof. now destruct s. Qed.

Lemma substring_append_l (s t : string) :
  substring 0 (String.length s) (s ++ t) = s.
Proof. induction s as [|c s IH]; simpl; [now destruct t | now rewrite IH]. Qed.

Lemma substring_skip (s t : string) (m : nat) :
  substring (String.length s) m (s ++ t) = substring 0 m t.
Proof. induction s as [|c s IH]; simpl; [reflexivity | exact IH]. Qed.

Lemma length_append (s t : string) :
  String.length (s ++ t) = String.length s + String.length t.
Proof. induction s as [|c s IH]; simpl; [reflexivity | now rewrite IH]. Qed.

Lemma from_append (s t : string) : Str.from (String.length s) (s ++ t) = t.
Proof.
  unfold Str.from. rewrite length_append, substring_skip.
  replace (String.length s + String.length t - String.length s)
    with (String.length t) by lia.
  apply substring_all.
Qed.

Lemma take_append (s t : string) : Str.take (String.length s) (s ++ t) = s.
Proof. induction s as [|c s IH]; simpl; [now destruct t | now rewrite IH]. Qed.

Lemma append_assoc (a b c : string) : (a ++ b) ++ c = a ++ (b ++ c).
Proof. induction a as [|x a IH]; simpl; [reflexivity | now rewrite IH]. Qed.

Lemma append_inv_l (a b c : string) : a ++ b = a ++ c -> b = c.
Proof.
  induction a as [|x a IH]; simpl; intros H; [exact H | injection H; auto].
Qed.

Lemma append_nil_r (a : string) : a ++ EmptyString = a.
Proof. induction a as [|x a IH]; simpl; [reflexivity | now rewrite IH]. Qed.

Lemma length_replicate (n : nat) (c : ascii) :
  String.length (Str.replicate n c) = n.
Proof. induction n as [|n IH]; simpl; [reflexivity | now rewrite IH]. Qed.

End StrFacts.

(** ** Properties of own properties *)

Lemma get_prop_omit (k : string) (o : JsObj) : get_prop k (omit k o) = None.
Proof.
  induction o as [|[k' v] o IH]; simpl; [reflexivity|].
  destruct (String.eqb k k') eqn:E; simpl; [exact IH | now rewrite E].
Qed.


(** ** Passwords *)

Module PasswordFacts.
Import Password.

Lemma parse_settings_hash (salt digest : string) :
  String.length salt = 22 ->
  parse_settings (settings SALT_ROUNDS salt ++ digest) = Some (SALT_ROUNDS, salt).
Proof.
  intros Hlen. unfold parse_settings.
  replace (settings SALT_ROUNDS salt ++ digest)
    with ("$2b$10$" ++ (salt ++ digest)).
  2:{ unfold settings. simpl. reflexivity. }
  assert (Hge : Nat.ltb (String.length ("$2b$10$" ++ (salt ++ digest))) 29 = false).
  { apply Nat.ltb_ge. simpl. rewrite StrFacts.length_append. lia. }
  rewrite Hge. cbn.
  rewrite StrFacts.substring_0_0.
  change (digit_value "1") with (Some 1).
  change (digit_value "0") with (Some 0).
  cbn. rewrite <- Hlen. now rewrite StrFacts.substring_append_l.
Qed.



End PasswordFacts.




(** ** Tokens *)

Module ToyFacts.
Import Toy.

Lemma dec_enc_nat (n : nat) (rest : string) :
  dec_nat (enc_nat n ++ rest) = Some (n, rest).
Proof.
  unfold enc_nat. induction n as [|n IH]; simpl; [reflexivity|].
  now rewrite IH.
Qed.

Lemma dec_enc_str (s rest : string) :
  dec_str (enc_str s ++ rest) = Some (s, rest).
Proof.
  unfold dec_str, enc_str.
  rewrite StrFacts.append_assoc, dec_enc_nat.
  now rewrite StrFacts.take_append, StrFacts.from_append.
Qed.

Lemma dec_enc_Z (z : Z) (rest : string) :
  dec_Z (enc_Z z ++ rest) = Some (z, rest).
Proof.
  unfold dec_Z, enc_Z. rewrite dec_enc_str, NilEmpty.isi.
  now rewrite DecimalZ.of_to.
Qed.

Lemma parse_render (j : Jwt.Jws) : parse (render j) = Some j.
Proof.
  destruct j as [[uid mail iat exp] sig]. unfold parse, render. simpl.
  rewrite dec_enc_str, dec_enc_str, dec_enc_Z, dec_enc_Z.
  rewrite <- (StrFacts.append_nil_r (enc_str sig)).
  now rewrite dec_enc_str.
Qed.

Lemma render_not_empty (j : Jwt.Jws) : Str.is_empty (render j) = false.
Proof.
  unfold render, enc_str, enc_nat.
  destruct (String.length (Jwt.c_user_id (Jwt.jws_payload j))); reflexivity.
Qed.

Lemma codec : codec_ok libs.
Proof. intros j. split; [apply parse_render | apply render_not_empty]. Qed.

End ToyFacts.

Lemma prefix_nil (s : string) : prefix EmptyString s = true.
Proof. now destruct s. Qed.

(** The gate on a header that carries a bearer token. *)
Lemma authenticate_bearer (env : Env) (request : Request) (token : string) :
  authorization request = Some ("Bearer " ++ token) ->
  authenticate env request =
  Do (JwtVerify token (JWT_SECRET env))
     (fun o => match o with
               | Ok decoded => Ret (inr (set_user request decoded))
               | Throw _ => Ret (inl invalid_or_expired_token)
               end).
Proof.
  intros Hh. unfold authenticate. rewrite Hh.
  change (Str.is_empty ("Bearer " ++ token)) with false.
  replace (Str.startsWith "Bearer " ("Bearer " ++ token)) with true
    by (symmetry; cbn; apply prefix_nil).
  replace (bearer_token ("Bearer " ++ token)) with token
    by (symmetry; apply (StrFacts.from_append "Bearer ")).
  reflexivity.
Qed.

(** The token [jwt.sign] makes, and what [jwt.verify] says of it later. *)
Lemma verify_sign (L : Libs) (key : string) (span issued later : Z)
    (userId email expires : string) :
  codec_ok L -> Str.is_empty key = false -> ms L expires = Some span ->
  let claims := Jwt.mkClaims userId email issued (issued + span / 1000) in
  let token := jws_render L (Jwt.mkJws claims (hmac L key claims)) in
  Jwt.sign (hmac L) (jws_render L) (ms L) issued userId email (Some key) expires
    = Ok token /\
  Jwt.verify (hmac L) (jws_parse L) later token (Some key)
    = if Z.leb (issued + span / 1000) later then Throw Jwt.TokenExpiredError
      else Ok claims.
Proof.
  intros Hcodec Hkey Hms claims token. split.
  - unfold Jwt.sign. now rewrite Hkey, Hms.
  - unfold Jwt.verify. destruct (Hcodec (Jwt.mkJws claims (hmac L key claims))) as [Hp Hne].
    fold token in Hp, Hne. rewrite Hne, Hp, Hkey. simpl.
    now rewrite String.eqb_refl.
Qed.



(** ** Runs *)

(** What holds of every run holds of the run against the store. *)
Lemma every_run_exec {R : Type} (L : Libs) (p : Prog R) :
  forall (P : list Event -> R -> Prop) (w : Store.World),
    every_run P p -> P (Store.trace L w p) (fst (Store.exec L w p)).
Proof.
  induction p as [r | c k IH]; intros P w H; simpl in *.
  - exact H.
  - destruct (Store.perform L w c) as [o w'].
    exact (IH o _ w' (H o)).
Qed.

Lemma every_run_weaken {R : Type} (p : Prog R) :
  forall (P Q : list Event -> R -> Prop),
    (forall tr r, P tr r -> Q tr r) -> every_run P p -> every_run Q p.
Proof.
  induction p as [r | c k IH]; intros P Q HPQ H; simpl in *.
  - now apply HPQ.
  - intros o. apply (IH o (fun tr r => P (mkEvent c o :: tr) r)); [|apply H].
    intros tr r. apply HPQ.
Qed.

Lemma every_run_bind {A B : Type} (p : Prog A) (f : A -> Prog B) :
  forall (P : list Event -> B -> Prop),
    every_run (fun tr a => every_run (fun tr' b => P (tr ++ tr')%list b) (f a)) p ->
    every_run P (bind p f).
Proof.
  induction p as [a | c k IH]; intros P H; simpl in *.
  - exact H.
  - intros o. apply IH. exact (H o).
Qed.

(** C3.  The gate answers 401 "Access token required", without any call,
    when the Authorization header is missing or does not start with
    [Bearer ]; otherwise its one call is the verification of the bearer
    token, and it answers 403 "Invalid or expired token" whatever error the
    verification throws, and sets [request.user] to the decoded identity
    when it succeeds. *)
Theorem authenticate_outcomes (env : Env) (request : Request) :
  (authorization request = None ->
   authenticate env request
   = Ret (inl (mkReply 401 [("success", JBool false);
                            ("message", JStr "Access token required")]))) /\
  (forall authHeader,
     authorization request = Some authHeader ->
     Str.startsWith "Bearer " authHeader = false ->
     authenticate env request
     = Ret (inl (mkReply 401 [("success", JBool false);
                              ("message", JStr "Access token required")]))) /\
  (forall authHeader,
     authorization request = Some authHeader ->
     Str.startsWith "Bearer " authHeader = true ->
     every_run
       (fun tr r =>
          exists o,
            tr = [mkEvent (JwtVerify (Str.from 7 authHeader) (JWT_SECRET env)) o] /\
            r = match o with
                | Ok decoded =>
                    inr (mkRequest (authorization request) (param_user_id request)
                                   (body request) (Some decoded))
                | Throw _ =>
                    inl (mkReply 403 [("success", JBool false);
                                      ("message", JStr "Invalid or expired token")])
                end)
       (authenticate env request)).
Proof.
  unfold authenticate. repeat split.
  - intros ->. reflexivity.
  - intros h -> Hp. rewrite Hp. now rewrite orb_true_r.
  - intros h Hh Hp. rewrite Hh, Hp.
    assert (Hne : Str.is_empty h = false) by (destruct h; [discriminate | reflexivity]).
    rewrite Hne. simpl. intros o.
    destruct o as [decoded | e]; simpl; eexists; (split; [reflexivity|]);
      unfold set_user; rewrite ?Hh; reflexivity.
Qed.

Lemma authenticate_outcomes_witness :
  authenticate Toy.env (mkRequest None "id-0" [] None) = Ret (inl access_token_required) /\
  authenticate Toy.env (mkRequest (Some "Basic YWxpY2U6cHc=") "id-0" [] None)
  = Ret (inl access_token_required) /\
  fst (Store.exec Toy.libs Toy.empty (authenticate Toy.env (Toy.bearer "garbage")))
  = inl invalid_or_expired_token /\
  fst (Store.exec Toy.libs Toy.empty (authenticate Toy.env (Toy.bearer Toy.forged_token)))
  = inl invalid_or_expired_token /\
  fst (Store.exec Toy.libs (Toy.at_time 605800000)
         (authenticate Toy.env (Toy.bearer Toy.good_token)))
  = inl invalid_or_expired_token.
Proof.
  destruct (authenticate_outcomes Toy.env (mkRequest None "id-0" [] None))
    as (Hnone & _ & _).
  destruct (authenticate_outcomes Toy.env (mkRequest (Some "Basic YWxpY2U6cHc=") "id-0" [] None))
    as (_ & Hbasic & _).
  destruct (authenticate_outcomes Toy.env (Toy.bearer "garbage")) as (_ & _ & Hmalformed).
  destruct (authenticate_outcomes Toy.env (Toy.bearer Toy.forged_token)) as (_ & _ & Hforged).
  destruct (authenticate_outcomes Toy.env (Toy.bearer Toy.good_token)) as (_ & _ & Hexpired).
  split; [exact (Hnone eq_refl)|].
  split; [exact (Hbasic _ eq_refl eq_refl)|].
  split; [|split].
  - destruct (every_run_exec Toy.libs _ _ Toy.empty (Hmalformed _ eq_refl eq_refl))
      as (o & Htr & Hr).
    apply (f_equal first_thrown) in Htr. vm_compute in Htr.
    rewrite Hr. destruct o as [decoded | e]; [discriminate Htr | reflexivity].
  - destruct (every_run_exec Toy.libs _ _ Toy.empty (Hforged _ eq_refl eq_refl))
      as (o & Htr & Hr).
    apply (f_equal first_thrown) in Htr. vm_compute in Htr.
    rewrite Hr. destruct o as [decoded | e]; [discriminate Htr | reflexivity].
  - destruct (every_run_exec Toy.libs _ _ (Toy.at_time 605800000)
                (Hexpired _ eq_refl eq_refl)) as (o & Htr & Hr).
    apply (f_equal first_thrown) in Htr. vm_compute in Htr.
    rewrite Hr. destruct o as [decoded | e]; [discriminate Htr | reflexivity].
Defined.

(** ** Routes *)

(** Walks a handler call by call: each outcome is a value or a thrown
    error, and each test of the handler goes both ways. *)
Ltac walk :=
  repeat (cbn [every_run attempt bind];
          match goal with
          | |- forall o : Outcome _, _ => intros [?|?]
          | |- every_run _ (match ?x with _ => _ end) => destruct x eqn:?
          | |- every_run _ (bind (match ?x with _ => _ end) _) => destruct x eqn:?
          end);
  cbn [every_run].

(** C4.  Against a database that answers, a login for an email without an
    account and a login with a wrong password for an existing account get
    the same reply, 401 with the message "Invalid email or password", and
    leave the database as it was; indeed every 401 that the login route
    sends, in any run, is that one reply. *)
Theorem login_failures_are_uniform (L : Libs) (env : Env) (w : Store.World)
    (b : LoginBody) :
  Store.db_up w = true ->
  (Store.find_by_email (lg_email b) (Store.users w) = None ->
   Store.exec L w (post_login env b)
   = (mkReply 401 (createResponse false "Invalid email or password" None None), w)) /\
  (forall u,
     Store.find_by_email (lg_email b) (Store.users w) = Some u ->
     Password.comparePassword (bcrypt_core L) (lg_password b) (u_password u) = false ->
     Store.exec L w (post_login env b)
     = (mkReply 401 (createResponse false "Invalid email or password" None None), w)) /\
  every_run
    (fun _ r =>
       status r = 401 ->
       r = mkReply 401 (createResponse false "Invalid email or password" None None))
    (post_login env b).
Proof.
  intros Hup. repeat split.
  - intros Hnone. unfold post_login, attempt. cbn. rewrite Hup. cbn.
    rewrite Hnone. reflexivity.
  - intros u Hsome Hwrong. unfold post_login, attempt. cbn. rewrite Hup. cbn.
    rewrite Hsome. cbn. unfold Password.comparePassword in Hwrong.
    rewrite Hwrong. reflexivity.
  - unfold post_login. walk; cbn; intros H; try discriminate H; reflexivity.
Qed.

Lemma login_failures_are_uniform_witness :
  Store.exec Toy.libs Toy.with_alice (post_login Toy.env (mkLoginBody "nobody@b.com" "password123"))
  = (invalid_email_or_password, Toy.with_alice) /\
  Store.exec Toy.libs Toy.with_alice (post_login Toy.env (mkLoginBody "a@b.com" "password124"))
  = (invalid_email_or_password, Toy.with_alice).
Proof.
  split.
  - destruct (login_failures_are_uniform Toy.libs Toy.env Toy.with_alice
                (mkLoginBody "nobody@b.com" "password123") eq_refl) as (Hnone & _ & _).
    exact (Hnone eq_refl).
  - destruct (login_failures_are_uniform Toy.libs Toy.env Toy.with_alice
                (mkLoginBody "a@b.com" "password124") eq_refl) as (_ & Hwrong & _).
    refine (Hwrong _ eq_refl eq_refl).
Defined.

(** C7.  When the authenticated identity's id differs from the [:user_id]
    of the path, each PATCH handler returns at once, without any call: 403
    with "You can only update your own profile", respectively "...
    preferences"; the database is left as it was.  And whatever the token
    and the collaborators, a run of either PATCH route that ends in a 403 has
    made no write. *)
Theorem patch_of_another_account_is_forbidden (env : Env) (request : Request)
    (requester : Jwt.Claims) :
  user request = Some requester ->
  Jwt.c_user_id requester <> param_user_id request ->
  patch_user_handler request
  = Ret (mkReply 403 (createResponse false "You can only update your own profile" None None)) /\
  patch_preferences_handler request
  = Ret (mkReply 403 (createResponse false "You can only update your own preferences" None None)) /\
  (forall L w,
     snd (Store.exec L w (patch_user_handler request)) = w /\
     snd (Store.exec L w (patch_preferences_handler request)) = w) /\
  every_run (fun tr r => status r = 403 -> writes tr = []) (patch_user env request) /\
  every_run (fun tr r => status r = 403 -> writes tr = []) (patch_preferences env request).
Proof.
  intros Huser Hne.
  apply String.eqb_neq in Hne.
  assert (H1 : patch_user_handler request = Ret only_your_own_profile).
  { unfold patch_user_handler. now rewrite Huser, Hne. }
  assert (H2 : patch_preferences_handler request = Ret only_your_own_preferences).
  { unfold patch_preferences_handler. now rewrite Huser, Hne. }
  split; [exact H1|]. split; [exact H2|]. split; [|split].
  - intros L w. rewrite H1, H2. split; reflexivity.
  - unfold patch_user, onRequest_authenticate, authenticate, patch_user_handler,
      patch_user_catch.
    walk; cbn; intros H; try discriminate H; try reflexivity.
    all: repeat match goal with
           | H : context [match ?x with _ => _ end] |- _ => destruct x; cbn in H
           end; discriminate H.
  - unfold patch_preferences, onRequest_authenticate, authenticate,
      patch_preferences_handler.
    walk; cbn; intros H; try discriminate H; reflexivity.
Qed.

Lemma patch_of_another_account_is_forbidden_witness :
  Store.exec Toy.libs Toy.with_alice
    (patch_user_handler
       (Toy.patch_request Toy.mallory_claims "id-0" [("name", JStr "Mallory")]))
  = (only_your_own_profile, Toy.with_alice) /\
  Store.exec Toy.libs Toy.with_alice
    (patch_preferences_handler
       (Toy.patch_request Toy.mallory_claims "id-0" [("sms", JBool true)]))
  = (only_your_own_preferences, Toy.with_alice).
Proof.
  destruct (patch_of_another_account_is_forbidden Toy.env
              (Toy.patch_request Toy.mallory_claims "id-0" [("name", JStr "Mallory")])
              Toy.mallory_claims eq_refl ltac:(discriminate)) as (Hprofile & _).
  destruct (patch_of_another_account_is_forbidden Toy.env
              (Toy.patch_request Toy.mallory_claims "id-0" [("sms", JBool true)])
              Toy.mallory_claims eq_refl ltac:(discriminate)) as (_ & Hprefs & _).
  rewrite Hprofile, Hprefs. split; reflexivity.
Defined.

(** The account object of a reply: every property of the row but the
    password. *)
Lemma userWithoutPassword_props (u : UserIncl) :
  userWithoutPassword u
  = [("id", JStr (u_id (fst u)));
     ("email", JStr (u_email (fst u)));
     ("name", JStr (u_name (fst u)));
     ("push_token", match u_push_token (fst u) with Some t => JStr t | None => JNull end);
     ("created_at", JDate (u_created_at (fst u)));
     ("updated_at", JDate (u_updated_at (fst u)));
     ("notification_preferences",
        match snd u with Some p => JObj (prefs_js p) | None => JNull end)].
Proof. reflexivity. Qed.

Lemma userWithoutPassword_clean (u : UserIncl) :
  mentions "password" (JObj (userWithoutPassword u)) = false.
Proof.
  rewrite userWithoutPassword_props.
  destruct u as [[i e pw n [t|] c up] [[pi pu pe pp ps]|]]; reflexivity.
Qed.

Lemma user_and_token_clean (u : UserIncl) (token : string) :
  mentions "password" (user_and_token u token) = false.
Proof.
  destruct u as [[i e pw n [t|] c up] [[pi pu pe pp ps]|]]; reflexivity.
Qed.

Lemma success_reply_clean (code : nat) (message : string) (data : JsVal) :
  mentions "password" data = false ->
  mentions "password" (JObj (payload (mkReply code (createResponse true message (Some data) None))))
  = false.
Proof.
  intros H. cbn. now rewrite H.
Qed.

Lemma failure_reply_clean (code : nat) (message : string) (error : option string) :
  mentions "password" (JObj (payload (mkReply code (createResponse false message None error))))
  = false.
Proof. destruct error; reflexivity. Qed.

Create HintDb clean.

#[local] Hint Resolve userWithoutPassword_clean user_and_token_clean
  success_reply_clean failure_reply_clean : clean.



(** C10.  In every run of the preferences handler the reply is never a 404;
    when a call throws (whatever the error, a missing record included) the
    reply is the 500 "Internal server error" with the error's message, and
    when the re-fetch finds no account row the reply is that 500 too, for the
    TypeError of reading [id] of [null].  The profile handler instead
    answers a thrown error of code P2025 with 404 "User not found". *)
Theorem preferences_failures_are_internal_errors (request : Request) :
  every_run
    (fun tr r =>
       status r <> 404 /\
       (forall e, first_thrown tr = Some e ->
          r = mkReply 500 (createResponse false "Internal server error" None
                             (Some (err_message e)))) /\
       (existsb refetched_null tr = true ->
          r = mkReply 500 (createResponse false "Internal server error" None
                             (Some "Cannot read properties of null (reading 'id')"))))
    (patch_preferences_handler request) /\
  every_run
    (fun tr r =>
       forall e, first_thrown tr = Some e -> err_code e = Some "P2025" ->
         r = mkReply 404 (createResponse false "User not found" None None))
    (patch_user_handler request).
Proof.
  split.
  - unfold patch_preferences_handler. walk; cbn;
      (split; [discriminate|]); split; intros; try discriminate;
      repeat match goal with
        | H : Some _ = Some _ |- _ => injection H as <-
        end; reflexivity.
  - unfold patch_user_handler. walk; cbn; intros e' He Hcode; try discriminate He.
    injection He as <-. unfold patch_user_catch. rewrite Hcode. reflexivity.
Qed.

Lemma preferences_failures_are_internal_errors_witness :
  fst (Store.exec Toy.libs Toy.empty
         (patch_preferences_handler
            (Toy.patch_request Toy.alice_claims "id-0" [("sms", JBool true)])))
  = internal_server_error Store.P2003 /\
  fst (Store.exec Toy.libs Toy.empty
         (patch_user_handler
            (Toy.patch_request Toy.alice_claims "id-0" [("name", JStr "Alice")])))
  = user_not_found.
Proof.
  destruct (preferences_failures_are_internal_errors
              (Toy.patch_request Toy.alice_claims "id-0" [("sms", JBool true)]))
    as [Hprefs _].
  destruct (preferences_failures_are_internal_errors
              (Toy.patch_request Toy.alice_claims "id-0" [("name", JStr "Alice")]))
    as [_ Hprofile].
  split.
  - destruct (every_run_exec Toy.libs _ _ Toy.empty Hprefs) as (_ & Hthrown & _).
    exact (Hthrown Store.P2003 eq_refl).
  - exact (every_run_exec Toy.libs _ _ Toy.empty Hprofile Store.P2025 eq_refl eq_refl).
Defined.

(** ** The store *)

Module StoreFacts.
Import Store.

Lemma prefs_upsert_keeps_users (w : World) (user_id : string) (update create : JsObj) :
  users (snd (prefs_upsert w user_id update create)) = users w.
Proof.
  unfold prefs_upsert.
  repeat match goal with
    | |- context [match ?x with _ => _ end] => destruct x
    end; reflexivity.
Qed.

Lemma find_app_new {A : Type} (f : A -> bool) (l : list A) (a : A) :
  find f l = None -> f a = true -> find f (l ++ [a]) = Some a.
Proof.
  intros Hnone Ha. induction l as [|x l IH]; simpl in *.
  - now rewrite Ha.
  - destruct (f x); [discriminate | now apply IH].
Qed.

(** The nested create writes both rows or none. *)
Lemma user_create_both_or_neither (w : World) (email password name : string)
    (pe pp ps : bool) :
  match user_create w email password name pe pp ps with
  | (Throw _, w') => w' = w
  | (Ok (u, op), w') =>
      op = Some (mkPrefs (fresh_id (S (fresh w))) (u_id u) pe pp ps) /\
      users w' = (users w ++ [u])%list /\
      prefs w' = (prefs w ++ [mkPrefs (fresh_id (S (fresh w))) (u_id u) pe pp ps])%list
  end.
Proof.
  unfold user_create. destruct (find_by_email email (users w)); cbn; auto.
Qed.

End StoreFacts.

(** C9.  In every run of the preferences handler that ends in its 200, the
    calls are the upsert and then the re-fetch of the account, and the
    [updated_at] of the reply is the one the re-fetch returned.  Against the
    store, that is the [updated_at] of the account row, which the upsert has
    not touched: the users table is the same before and after, whatever the
    clock reads at the time of the request. *)
Theorem preferences_reply_has_account_timestamp (request : Request) :
  every_run
    (fun tr r =>
       status r = 200 ->
       exists p id t,
         tr = [mkEvent (PrefsUpsert (param_user_id request) (body request)
                          (spread [("user_id", JStr (param_user_id request))] (body request)))
                       (Ok p);
               mkEvent (UserFindUniqueSelect (param_user_id request)) (Ok (Some (id, t)))] /\
         r = preferences_updated id p t)
    (patch_preferences_handler request) /\
  (forall L w r w',
     Store.exec L w (patch_preferences_handler request) = (r, w') ->
     status r = 200 ->
     Store.users w' = Store.users w /\
     exists u p,
       Store.find_by_id (param_user_id request) (Store.users w) = Some u /\
       r = preferences_updated (u_id u) p (u_updated_at u) /\
       get_prop "data" (payload r)
       = Some (JObj [("id", JStr (u_id u));
                     ("notification_preferences",
                        JObj [("email", JBool (np_email p));
                              ("push", JBool (np_push p));
                              ("sms", JBool (np_sms p))]);
                     ("updated_at", JDate (u_updated_at u))])).
Proof.
  split.
  - unfold patch_preferences_handler. walk; cbn; intros H; try discriminate H.
    do 3 eexists. split; reflexivity.
  - intros L w r w'. unfold patch_preferences_handler, attempt.
    destruct (user request) as [requester|]; cbn;
      [|intros H; injection H as <- <-; discriminate].
    destruct (negb _); cbn; [intros H; injection H as <- <-; discriminate|].
    destruct (no_keys _); cbn; [intros H; injection H as <- <-; discriminate|].
    destruct (Store.db_up w) eqn:Hup; cbn;
      [|intros H; injection H as <- <-; discriminate].
    pose proof (StoreFacts.prefs_upsert_keeps_users w (param_user_id request) (body request)
                  (spread [("user_id", JStr (param_user_id request))] (body request)))
      as Hkeep.
    destruct (Store.prefs_upsert _ _ _ _) as [[p|e] w1] eqn:Hupsert; cbn in *;
      [|intros H; injection H as <- <-; discriminate].
    rewrite Hkeep.
    destruct (Store.db_up w1); cbn;
      [|intros H; injection H as <- <-; discriminate].
    destruct (Store.find_by_id (param_user_id request) (Store.users w)) as [u|];
      cbn; [|intros H; injection H as <- <-; discriminate].
    intros H _. injection H as <- <-.
    split; [exact Hkeep|]. exists u, p. repeat split.
Qed.

Lemma preferences_reply_has_account_timestamp_witness :
  Store.now (Toy.later Toy.with_alice 5000000) = 5000000%Z /\
  exists p : Prefs,
    fst (Store.exec Toy.libs (Toy.later Toy.with_alice 5000000)
           (patch_preferences_handler
              (Toy.patch_request Toy.alice_claims "id-0" [("sms", JBool true)])))
    = preferences_updated "id-0" p 1000000.
Proof.
  split; [reflexivity|].
  destruct (preferences_reply_has_account_timestamp
              (Toy.patch_request Toy.alice_claims "id-0" [("sms", JBool true)]))
    as [_ Hstore].
  destruct (Hstore Toy.libs (Toy.later Toy.with_alice 5000000) _ _
              (surjective_pairing _) eq_refl)
    as (_ & u & p & Hu & Hr & _).
  exists p. rewrite Hr. vm_compute in Hu. injection Hu as <-. reflexivity.
Defined.

#[local] Arguments Store.find_by_email : simpl never.
#[local] Arguments Store.fresh_id : simpl never.
#[local] Arguments Password.bcrypt_hash : simpl never.
#[local] Arguments Jwt.sign : simpl never.

(** Whatever happens to a registration, the store ends with both new rows
    or with none. *)
Lemma register_both_or_neither (L : Libs) (env : Env) (w : Store.World)
    (b : CreateUserBody) :
  let w' := snd (Store.exec L w (post_users env b)) in
  (Store.users w' = Store.users w /\ Store.prefs w' = Store.prefs w) \/
  (exists u p,
     Store.users w' = (Store.users w ++ [u])%list /\
     Store.prefs w' = (Store.prefs w ++ [p])%list /\
     np_user_id p = u_id u /\
     np_email p = true /\ np_push p = true /\ np_sms p = false).
Proof.
  unfold post_users, attempt. cbn.
  destruct (Store.db_up w) eqn:Hup; cbn; [|left; split; reflexivity].
  destruct (Store.find_by_email (cu_email b) (Store.users w)) eqn:Hfind; cbn;
    [left; split; reflexivity|].
  rewrite Hup. unfold Store.user_create. cbn. rewrite Hfind. cbn.
  destruct (Jwt.sign _ _ _ _ _ _ _ _); cbn;
    right; eexists; eexists; repeat split.
Qed.

(** C5.  Against a database that answers, with the signing secret and a
    time span configured: a registration for an email that has an account
    is answered 409 "User with this email already exists" and the store is
    left as it was; a registration for a new email appends one users row
    (with the bcrypt hash as its password) and one preferences row (email
    [true], push [true], sms [false]) for it, issues a token for the new id
    and email, and answers 201 with the row without its password and the
    token.  In any case the store ends with both new rows or with none. *)
Theorem register_outcomes (L : Libs) (env : Env) (key : string) (span : Z)
    (w : Store.World) (b : CreateUserBody) :
  Store.db_up w = true ->
  JWT_SECRET env = Some key -> Str.is_empty key = false ->
  ms L (expiresIn env) = Some span ->
  (forall existing,
     Store.find_by_email (cu_email b) (Store.users w) = Some existing ->
     Store.exec L w (post_users env b)
     = (mkReply 409 (createResponse false "User with this email already exists" None None), w)) /\
  (Store.find_by_email (cu_email b) (Store.users w) = None ->
   exists u p token w',
     Store.exec L w (post_users env b)
     = (mkReply 201
          (createResponse true "User created successfully"
             (Some (JObj [("user", JObj (userWithoutPassword (u, Some p)));
                          ("token", JStr token)])) None), w') /\
     u = mkUser (Store.fresh_id (Store.fresh w)) (cu_email b)
           (Password.hashPassword (bcrypt_core L) (Store.entropy w (Store.drawn w))
              (cu_password b))
           (cu_name b) None (Store.now w) (Store.now w) /\
     p = mkPrefs (Store.fresh_id (S (Store.fresh w))) (u_id u) true true false /\
     Store.users w' = (Store.users w ++ [u])%list /\
     Store.prefs w' = (Store.prefs w ++ [p])%list /\
     Jwt.sign (hmac L) (jws_render L) (ms L) (Store.now w / 1000) (u_id u) (u_email u)
       (JWT_SECRET env) (expiresIn env) = Ok token /\
     get_prop "password" (userWithoutPassword (u, Some p)) = None) /\
  (let w' := snd (Store.exec L w (post_users env b)) in
   (Store.users w' = Store.users w /\ Store.prefs w' = Store.prefs w) \/
   (exists u p,
      Store.users w' = (Store.users w ++ [u])%list /\
      Store.prefs w' = (Store.prefs w ++ [p])%list /\
      np_user_id p = u_id u /\
      np_email p = true /\ np_push p = true /\ np_sms p = false)).
Proof.
  intros Hup Hsecret Hkey Hms. split; [|split].
  - intros existing Hfind. unfold post_users, attempt. cbn.
    rewrite Hup. cbn. rewrite Hfind. reflexivity.
  - intros Hfind. unfold post_users, attempt. cbn.
    rewrite Hup. cbn. rewrite Hfind. cbn. rewrite Hup.
    unfold Store.user_create. cbn. rewrite Hfind. cbn.
    rewrite Hsecret. unfold Jwt.sign. rewrite Hkey, Hms. cbn.
    do 4 eexists. repeat split.
  - apply register_both_or_neither.
Qed.

Lemma register_outcomes_witness :
  Store.exec Toy.libs Toy.with_alice (post_users Toy.env Toy.alice)
  = (email_already_exists, Toy.with_alice) /\
  exists token,
    fst (Store.exec Toy.libs Toy.empty (post_users Toy.env Toy.alice))
    = mkReply 201
        (createResponse true "User created successfully"
           (Some (JObj [("user",
                         JObj [("id", JStr "id-0"); ("email", JStr "a@b.com");
                               ("name", JStr "A"); ("push_token", JNull);
                               ("created_at", JDate 1000000);
                               ("updated_at", JDate 1000000);
                               ("notification_preferences",
                                JObj [("id", JStr "id-1"); ("user_id", JStr "id-0");
                                      ("email", JBool true); ("push", JBool true);
                                      ("sms", JBool false)])]);
                        ("token", JStr token)])) None).
Proof.
  split.
  - destruct (register_outcomes Toy.libs Toy.env "secret" 604800000 Toy.with_alice
                Toy.alice eq_refl eq_refl eq_refl eq_refl) as (Hexists & _ & _).
    exact (Hexists _ eq_refl).
  - destruct (register_outcomes Toy.libs Toy.env "secret" 604800000 Toy.empty
                Toy.alice eq_refl eq_refl eq_refl eq_refl) as (_ & Hnew & _).
    destruct (Hnew eq_refl) as (u & p & token & w' & Hexec & Hu & Hp & _).
    exists token. rewrite Hexec. subst p. subst u. reflexivity.
Defined.




(** ** The service at work *)

Example verify_good_token :
  Jwt.verify Toy.hmac Toy.parse 1000 Toy.good_token (Some "secret") = Ok Toy.alice_claims.
Proof. vm_compute. reflexivity. Qed.

Example verify_at_expiry :
  Jwt.verify Toy.hmac Toy.parse 605800 Toy.good_token (Some "secret")
  = Throw Jwt.TokenExpiredError.
Proof. vm_compute. reflexivity. Qed.

Example verify_forged_token :
  Jwt.verify Toy.hmac Toy.parse 1000 Toy.forged_token (Some "secret")
  = Throw (Jwt.JsonWebTokenError "invalid signature").
Proof. vm_compute. reflexivity. Qed.

Example verify_garbage :
  Jwt.verify Toy.hmac Toy.parse 1000 "garbage" (Some "secret")
  = Throw (Jwt.JsonWebTokenError "jwt malformed").
Proof. vm_compute. reflexivity. Qed.

Example register_alice :
  Store.users Toy.with_alice
  = [mkUser "id-0" "a@b.com"
       (Password.hashPassword (bcrypt_core Toy.libs) Toy.salt "password123")
       "A" None 1000000 1000000] /\
  Store.prefs Toy.with_alice = [mkPrefs "id-1" "id-0" true true false].
Proof. split; vm_compute; reflexivity. Qed.

Example login_alice :
  status (fst (Store.exec Toy.libs Toy.with_alice
                 (post_login Toy.env (mkLoginBody "a@b.com" "password123")))) = 200.
Proof. vm_compute. reflexivity. Qed.

Example alice_sets_sms :
  Store.exec Toy.libs Toy.with_alice
    (patch_preferences Toy.env
       (mkRequest (Some ("Bearer " ++ Toy.good_token)) "id-0" [("sms", JBool true)] None))
  = (preferences_updated "id-0" (mkPrefs "id-1" "id-0" true true true) 1000000,
     Store.mkWorld (Store.users Toy.with_alice) [mkPrefs "id-1" "id-0" true true true]
       1000000 (fun _ => Toy.salt) 1 2 true).
Proof. vm_compute. reflexivity. Qed.

Example alice_renames_herself :
  fst (Store.exec Toy.libs (Toy.later Toy.with_alice 2000000)
         (patch_user Toy.env
            (mkRequest (Some ("Bearer " ++ Toy.good_token)) "id-0"
               [("name", JStr "Alice")] None)))
  = mkReply 200
      (createResponse true "User updated successfully"
         (Some (JObj [("id", JStr "id-0"); ("email", JStr "a@b.com");
                      ("name", JStr "Alice"); ("push_token", JNull);
                      ("created_at", JDate 1000000); ("updated_at", JDate 2000000);
                      ("notification_preferences",
                       JObj [("id", JStr "id-1"); ("user_id", JStr "id-0");
                             ("email", JBool true); ("push", JBool true);
                             ("sms", JBool false)])])) None).
Proof. vm_compute. reflexivity. Qed.

(** * More of the service *)

(** ** The routes, call by call *)

(** X1.  An empty body sent by the owner is answered 400 by both PATCH
    handlers, at once and without any call; and in every run of either PATCH
    route, hook included, a 400 has been preceded by no call to the
    database. *)
Theorem empty_patch_is_bad_request (env : Env) (request : Request)
    (requester : Jwt.Claims) :
  user request = Some requester ->
  Jwt.c_user_id requester = param_user_id request ->
  body request = [] ->
  patch_user_handler request
  = Ret (mkReply 400 (createResponse false "No valid fields to update" None None)) /\
  patch_preferences_handler request
  = Ret (mkReply 400 (createResponse false "No preferences provided to update" None None)) /\
  every_run (fun tr r => status r = 400 -> database_calls tr = []) (patch_user env request) /\
  every_run (fun tr r => status r = 400 -> database_calls tr = [])
    (patch_preferences env request).
Proof.
  intros Huser Hid Hbody.
  apply String.eqb_eq in Hid.
  split; [|split; [|split]].
  - unfold patch_user_handler. now rewrite Huser, Hid, Hbody.
  - unfold patch_preferences_handler. now rewrite Huser, Hid, Hbody.
  - unfold patch_user, onRequest_authenticate, authenticate, patch_user_handler,
      patch_user_catch.
    walk; cbn; intros H; try discriminate H; try reflexivity.
    all: repeat match goal with
           | H : context [match ?x with _ => _ end] |- _ => destruct x; cbn in H
           end; discriminate H.
  - unfold patch_preferences, onRequest_authenticate, authenticate,
      patch_preferences_handler.
    walk; cbn; intros H; try discriminate H; reflexivity.
Qed.

Lemma empty_patch_is_bad_request_witness :
  Store.exec Toy.libs Toy.with_alice
    (patch_user_handler (Toy.patch_request Toy.alice_claims "id-0" []))
  = (mkReply 400 (createResponse false "No valid fields to update" None None),
     Toy.with_alice) /\
  Store.exec Toy.libs Toy.with_alice
    (patch_preferences_handler (Toy.patch_request Toy.alice_claims "id-0" []))
  = (mkReply 400 (createResponse false "No preferences provided to update" None None),
     Toy.with_alice).
Proof.
  destruct (empty_patch_is_bad_request Toy.env
              (Toy.patch_request Toy.alice_claims "id-0" []) Toy.alice_claims
              eq_refl eq_refl eq_refl) as (Hprofile & Hprefs & _).
  rewrite Hprofile, Hprefs. split; reflexivity.
Defined.

(** X2.  In every run of either PATCH route, a call to the database happens
    only after a first call that is a successful token verification. *)
Theorem patch_reaches_database_only_verified (env : Env) (request : Request) :
  every_run
    (fun tr _ =>
       database_calls tr = [] \/
       exists ev rest, tr = ev :: rest /\ verified ev = true)
    (patch_user env request) /\
  every_run
    (fun tr _ =>
       database_calls tr = [] \/
       exists ev rest, tr = ev :: rest /\ verified ev = true)
    (patch_preferences env request).
Proof.
  split.
  - unfold patch_user, onRequest_authenticate, authenticate, patch_user_handler.
    walk; cbn; try (left; reflexivity); right; do 2 eexists; split; reflexivity.
  - unfold patch_preferences, onRequest_authenticate, authenticate,
      patch_preferences_handler.
    walk; cbn; try (left; reflexivity); right; do 2 eexists; split; reflexivity.
Qed.

(** X3.  GET /:user_id makes one call, the lookup by id with the preferences
    included, and no token verification.  Against the store it leaves the
    database as it was, answers 404 "User not found" when no row has the id,
    and otherwise 200 with the row, its preferences and no password; when the
    database does not answer it replies 500. *)
Theorem get_user_reads_the_row (L : Libs) (w : Store.World) (user_id : string) :
  every_run (fun tr _ => calls tr = [UserFindUniqueIncl (ById user_id)])
    (get_user user_id) /\
  snd (Store.exec L w (get_user user_id)) = w /\
  (Store.db_up w = false ->
   fst (Store.exec L w (get_user user_id)) = internal_server_error Store.Unreachable) /\
  (Store.db_up w = true ->
   Store.find_by_id user_id (Store.users w) = None ->
   fst (Store.exec L w (get_user user_id))
   = mkReply 404 (createResponse false "User not found" None None)) /\
  (Store.db_up w = true ->
   forall u, Store.find_by_id user_id (Store.users w) = Some u ->
   fst (Store.exec L w (get_user user_id))
   = mkReply 200
       (createResponse true "User profile retrieved successfully"
          (Some (JObj (userWithoutPassword
                         (u, Store.find_prefs (u_id u) (Store.prefs w))))) None)).
Proof.
  split; [unfold get_user; walk; reflexivity|].
  unfold get_user, attempt. cbn.
  destruct (Store.db_up w); cbn.
  - destruct (Store.find_by_id user_id (Store.users w)) as [u|]; cbn;
      repeat split; try discriminate; try reflexivity.
    intros _ u' H. injection H as <-. reflexivity.
  - repeat split; discriminate.
Qed.

Lemma get_user_reads_the_row_witness :
  fst (Store.exec Toy.libs Toy.with_alice (get_user "id-7")) = user_not_found /\
  fst (Store.exec Toy.libs Toy.with_alice (get_user "id-0"))
  = mkReply 200
      (createResponse true "User profile retrieved successfully"
         (Some (JObj [("id", JStr "id-0"); ("email", JStr "a@b.com");
                      ("name", JStr "A"); ("push_token", JNull);
                      ("created_at", JDate 1000000); ("updated_at", JDate 1000000);
                      ("notification_preferences",
                       JObj [("id", JStr "id-1"); ("user_id", JStr "id-0");
                             ("email", JBool true); ("push", JBool true);
                             ("sms", JBool false)])])) None).
Proof.
  split.
  - destruct (get_user_reads_the_row Toy.libs Toy.with_alice "id-7")
      as (_ & _ & _ & Hnone & _).
    exact (Hnone eq_refl eq_refl).
  - destruct (get_user_reads_the_row Toy.libs Toy.with_alice "id-0")
      as (_ & _ & _ & _ & Hsome).
    rewrite (Hsome eq_refl _ eq_refl). reflexivity.
Defined.

(** X4.  A login never writes: no run of POST /login makes a writing call,
    and against the store the database is the same afterwards.  When the
    lookup finds no account the handler stops there: the password is handed
    to bcrypt in no such run. *)
Theorem login_is_read_only (env : Env) (b : LoginBody) :
  every_run
    (fun tr r =>
       writes tr = [] /\
       (existsb found_nothing tr = true ->
        pick bcrypt_input (calls tr) = [] /\ r = invalid_email_or_password))
    (post_login env b) /\
  (forall L w, snd (Store.exec L w (post_login env b)) = w).
Proof.
  split.
  - unfold post_login. walk; cbn; (split; [reflexivity|]); intros H;
      try discriminate H; split; reflexivity.
  - intros L w. unfold post_login, attempt. cbn.
    destruct (Store.db_up w); cbn; [|reflexivity].
    destruct (Store.find_by_email _ _); cbn; [|reflexivity].
    destruct (Password.bcrypt_compare _ _ _); cbn; [|reflexivity].
    destruct (Jwt.sign _ _ _ _ _ _ _ _); reflexivity.
Qed.


(** X6.  In every run of a registration the password given to
    [prisma.user.create] is what [bcrypt.hash] answered, the plaintext goes
    to bcrypt only, at most one writing call is made, and none is made
    unless the pre-check found no account. *)
Theorem register_stores_the_hash (env : Env) (b : CreateUserBody) :
  every_run
    (fun tr _ =>
       pick created_password (calls tr) = pick hash_answer tr /\
       (forall p, In p (pick bcrypt_input (calls tr)) -> p = cu_password b) /\
       length (writes tr) <= 1 /\
       (existsb found_nothing tr = false -> writes tr = []))
    (post_users env b).
Proof.
  unfold post_users. walk; cbn; repeat split; auto;
    try (intros p [<-|[]]; reflexivity); try (intros p []);
    try discriminate; try lia.
Qed.

Lemma login_is_read_only_witness :
  Store.exec Toy.libs Toy.with_alice (post_login Toy.env (mkLoginBody "x@b.com" "pw"))
  = (invalid_email_or_password, Toy.with_alice).
Proof.
  destruct (login_is_read_only Toy.env (mkLoginBody "x@b.com" "pw")) as [Hrun Hworld].
  destruct (every_run_exec Toy.libs _ _ Toy.with_alice Hrun) as [_ Hnone].
  destruct (Hnone eq_refl) as [_ Hreply].
  rewrite (surjective_pairing (Store.exec _ _ _)), Hreply, Hworld. reflexivity.
Defined.

Lemma register_stores_the_hash_witness :
  pick created_password
    (calls (Store.trace Toy.libs Toy.empty (post_users Toy.env Toy.alice)))
  = [Password.hashPassword (bcrypt_core Toy.libs) Toy.salt "password123"] /\
  writes (Store.trace Toy.libs Toy.with_alice (post_users Toy.env Toy.alice)) = [].
Proof.
  destruct (every_run_exec Toy.libs _ _ Toy.empty
              (register_stores_the_hash Toy.env Toy.alice)) as (Hhash & _).
  destruct (every_run_exec Toy.libs _ _ Toy.with_alice
              (register_stores_the_hash Toy.env Toy.alice)) as (_ & _ & _ & Hnone).
  split; [rewrite Hhash; reflexivity | exact (Hnone eq_refl)].
Defined.

(** ** One request after another *)

Module RegisteredFacts.
Import Registered.

(** A registration that is ready succeeds, with these rows and this token. *)
Lemma exec_register (L : Libs) (env : Env) (key : string) (span : Z)
    (w : Store.World) (b : CreateUserBody) :
  ready L env key span w b ->
  Store.exec L w (post_users env b)
  = (mkReply 201
       (createResponse true "User created successfully"
          (Some (user_and_token (new_user L w b, Some (new_prefs w))
                   (token L env key span w b))) None),
     world L w b).
Proof.
  intros (Hup & Hfind & _ & _ & Hsecret & Hkey & Hms).
  unfold post_users, attempt. cbn.
  rewrite Hup. cbn. rewrite Hfind. cbn. rewrite Hup.
  unfold Store.user_create. cbn. rewrite Hfind. cbn.
  rewrite Hsecret. unfold Jwt.sign. rewrite Hkey, Hms. cbn.
  unfold world, new_user, new_prefs, Store.with_tables. cbn. rewrite Hup.
  reflexivity.
Qed.


Lemma find_new_id (L : Libs) (w : Store.World) (b : CreateUserBody) :
  Store.find_by_id (Store.fresh_id (Store.fresh w)) (Store.users w) = None ->
  Store.find_by_id (Store.fresh_id (Store.fresh w)) (Store.users (world L w b))
  = Some (new_user L w b).
Proof.
  intros Hfind. unfold Store.find_by_id in *. cbn.
  apply StoreFacts.find_app_new; [exact Hfind | apply String.eqb_refl].
Qed.

Lemma find_new_prefs (L : Libs) (w : Store.World) (b : CreateUserBody) :
  Store.find_prefs (Store.fresh_id (Store.fresh w)) (Store.prefs w) = None ->
  Store.find_prefs (Store.fresh_id (Store.fresh w)) (Store.prefs (world L w b))
  = Some (new_prefs w).
Proof.
  intros Hfind. unfold Store.find_prefs in *. cbn.
  apply StoreFacts.find_app_new; [exact Hfind | apply String.eqb_refl].
Qed.

End RegisteredFacts.

#[local] Arguments Password.bcrypt_compare : simpl never.
#[local] Arguments Password.hashPassword : simpl never.
#[local] Arguments Store.find_by_id : simpl never.
#[local] Arguments Store.find_prefs : simpl never.
#[local] Arguments Jwt.verify : simpl never.
#[local] Arguments Registered.new_user : simpl never.
#[local] Arguments Registered.new_prefs : simpl never.
#[local] Arguments Registered.token : simpl never.
#[local] Arguments Store.set_pref_fields : simpl never.
#[local] Arguments no_keys : simpl never.
#[local] Arguments spread : simpl never.



(** X8.  After a registration that succeeds, GET on the new id is answered
    200 with the account object that the registration itself returned, and
    leaves the database as it is. *)
Theorem get_user_after_register (L : Libs) (env : Env) (key : string) (span : Z)
    (w : Store.World) (b : CreateUserBody) :
  Registered.ready L env key span w b ->
  let w' := snd (Store.exec L w (post_users env b)) in
  get_prop "data" (payload (fst (Store.exec L w (post_users env b))))
  = Some (JObj [("user", JObj (userWithoutPassword
                                 (Registered.new_user L w b, Some (Registered.new_prefs w))));
                ("token", JStr (Registered.token L env key span w b))]) /\
  Store.exec L w' (get_user (Store.fresh_id (Store.fresh w)))
  = (mkReply 200
       (createResponse true "User profile retrieved successfully"
          (Some (JObj (userWithoutPassword
                         (Registered.new_user L w b, Some (Registered.new_prefs w)))))
          None),
     w').
Proof.
  intros Hready w'. subst w'.
  rewrite (RegisteredFacts.exec_register L env key span w b Hready). cbn [fst snd].
  destruct Hready as (Hup & Hfind & Hid & Hprefs & Hsecret & Hkey & Hms).
  pose proof (RegisteredFacts.find_new_id L w b Hid) as Huser.
  pose proof (RegisteredFacts.find_new_prefs L w b Hprefs) as Hrow.
  cbn in Huser, Hrow.
  split; [reflexivity|].
  unfold get_user, attempt. cbn. rewrite Hup. cbn. rewrite Huser. cbn.
  unfold Store.include_prefs. cbn.
  change (u_id (Registered.new_user L w b)) with (Store.fresh_id (Store.fresh w)).
  rewrite Hrow. reflexivity.
Qed.

Lemma get_user_after_register_witness :
  fst (Store.exec Toy.libs Toy.with_alice (get_user "id-0"))
  = mkReply 200
      (createResponse true "User profile retrieved successfully"
         (Some (JObj (userWithoutPassword
                        (Registered.new_user Toy.libs Toy.empty Toy.alice,
                         Some (Registered.new_prefs Toy.empty)))))
         None).
Proof.
  assert (Hready : Registered.ready Toy.libs Toy.env "secret" 604800000 Toy.empty Toy.alice)
    by (repeat split).
  destruct (get_user_after_register Toy.libs Toy.env "secret" 604800000 Toy.empty
              Toy.alice Hready) as [_ Hget].
  exact (f_equal fst Hget).
Defined.

(** X9.  The token that a registration returns opens the PATCH routes for
    the new account and for no other: presented at any time before its
    expiry, it lets the owner set preferences (the reply carries the merged
    preferences and the [updated_at] of the account row, still the time of
    the registration), and a PATCH of any other id with it is answered 403
    by both routes, the database left as it is. *)
Theorem token_of_registration_opens_own_account (L : Libs) (env : Env)
    (key : string) (span : Z) (w : Store.World) (b : CreateUserBody)
    (t : Z) (preferences : JsObj) (merged : Prefs) :
  Registered.ready L env key span w b ->
  codec_ok L ->
  (t / 1000 < Store.now w / 1000 + span / 1000)%Z ->
  preferences <> [] ->
  Store.set_pref_fields (Registered.new_prefs w) preferences = Some merged ->
  let w' := Registered.at_clock (snd (Store.exec L w (post_users env b))) t in
  let bearer := Some ("Bearer " ++ Registered.token L env key span w b) in
  fst (Store.exec L w'
         (patch_preferences env
            (mkRequest bearer (Store.fresh_id (Store.fresh w)) preferences None)))
  = preferences_updated (Store.fresh_id (Store.fresh w)) merged (Store.now w) /\
  (forall other updates,
     other <> Store.fresh_id (Store.fresh w) ->
     Store.exec L w' (patch_preferences env (mkRequest bearer other updates None))
     = (only_your_own_preferences, w') /\
     Store.exec L w' (patch_user env (mkRequest bearer other updates None))
     = (only_your_own_profile, w')).
Proof.
  intros Hready Hcodec Hlive Hbody Hmerge w' bearer. subst w' bearer.
  rewrite (RegisteredFacts.exec_register L env key span w b Hready). cbn [snd].
  destruct Hready as (Hup & Hfind & Hid & Hprefs & Hsecret & Hkey & Hms).
  pose proof (RegisteredFacts.find_new_id L w b Hid) as Huser.
  pose proof (RegisteredFacts.find_new_prefs L w b Hprefs) as Hrow.
  cbn in Huser, Hrow.
  destruct (verify_sign L key span (Store.now w / 1000) (t / 1000)
              (Store.fresh_id (Store.fresh w)) (cu_email b) (expiresIn env)
              Hcodec Hkey Hms) as [_ Hverify].
  cbv zeta in Hverify.
  replace (Z.leb _ _) with false in Hverify
    by (symmetry; apply Z.leb_gt; exact Hlive).
  fold (Registered.token L env key span w b) in Hverify.
  split.
  - unfold patch_preferences, onRequest_authenticate.
    match goal with
    | |- context [authenticate env ?r] =>
        rewrite (authenticate_bearer env r (Registered.token L env key span w b) eq_refl)
    end.
    cbn. rewrite Hsecret, Hverify. cbn.
    rewrite String.eqb_refl. cbn.
    assert (Hkeys : no_keys preferences = false)
      by (destruct preferences; [congruence | reflexivity]).
    rewrite Hkeys. cbn.
    rewrite Hup. unfold Store.prefs_upsert. cbn. rewrite Hrow, Hmerge. cbn.
    rewrite Hup. cbn. rewrite Huser. reflexivity.
  - intros other updates Hother. apply not_eq_sym in Hother.
    apply String.eqb_neq in Hother. split.
    + unfold patch_preferences, onRequest_authenticate.
      match goal with
    | |- context [authenticate env ?r] =>
        rewrite (authenticate_bearer env r (Registered.token L env key span w b) eq_refl)
    end.
      cbn. rewrite Hsecret, Hverify. cbn. rewrite Hother. reflexivity.
    + unfold patch_user, onRequest_authenticate.
      match goal with
    | |- context [authenticate env ?r] =>
        rewrite (authenticate_bearer env r (Registered.token L env key span w b) eq_refl)
    end.
      cbn. rewrite Hsecret, Hverify. cbn. rewrite Hother. reflexivity.
Qed.

Lemma token_of_registration_opens_own_account_witness :
  fst (Store.exec Toy.libs (Registered.at_clock Toy.with_alice 2000000)
         (patch_preferences Toy.env
            (mkRequest (Some ("Bearer " ++ Toy.good_token)) "id-0"
               [("sms", JBool true)] None)))
  = preferences_updated "id-0" (mkPrefs "id-1" "id-0" true true true) 1000000 /\
  fst (Store.exec Toy.libs (Registered.at_clock Toy.with_alice 2000000)
         (patch_user Toy.env
            (mkRequest (Some ("Bearer " ++ Toy.good_token)) "id-7"
               [("name", JStr "Mallory")] None)))
  = only_your_own_profile.
Proof.
  assert (Hready : Registered.ready Toy.libs Toy.env "secret" 604800000 Toy.empty Toy.alice)
    by (repeat split).
  destruct (token_of_registration_opens_own_account Toy.libs Toy.env "secret"
              604800000 Toy.empty Toy.alice 2000000 [("sms", JBool true)]
              (mkPrefs "id-1" "id-0" true true true)
              Hready ToyFacts.codec eq_refl ltac:(discriminate) eq_refl)
    as [Hown Hother].
  split; [exact Hown|].
  destruct (Hother "id-7" [("name", JStr "Mallory")] ltac:(discriminate)) as [_ Hprofile].
  exact (f_equal fst Hprofile).
Defined.

(** ** Objects and headers *)

Lemma get_prop_set_prop (k k' : string) (v : JsVal) (o : JsObj) :
  get_prop k (set_prop k' v o) = if String.eqb k k' then Some v else get_prop k o.
Proof.
  induction o as [|[k0 v0] o IH]; cbn.
  - destruct (String.eqb k k'); reflexivity.
  - destruct (String.eqb k' k0) eqn:E0; cbn.
    + apply String.eqb_eq in E0. subst k0.
      destruct (String.eqb k k'); reflexivity.
    + rewrite IH. destruct (String.eqb k k0) eqn:E1; [|reflexivity].
      apply String.eqb_eq in E1. subst k0.
      destruct (String.eqb k k') eqn:E2; [|reflexivity].
      apply String.eqb_eq in E2. subst k'. rewrite String.eqb_refl in E0. discriminate.
Qed.

Lemma get_prop_spread (k : string) (extra : JsObj) :
  forall base,
    get_prop k (spread base extra)
    = match get_last k extra with
      | Some v => Some v
      | None => get_prop k base
      end.
Proof.
  unfold spread.
  induction extra as [|[k' v'] extra IH]; intros base; cbn; [reflexivity|].
  rewrite IH, get_prop_set_prop.
  destruct (get_last k extra); [reflexivity|].
  destruct (String.eqb k k'); reflexivity.
Qed.

(** X10.  The only upsert of the preferences handler, in any run, is for
    the [:user_id] of the path, updates with the body as it is, and creates
    with the body spread over that id: every property of the body is in the
    create object, so a [user_id] in the body replaces the one of the
    path. *)
Theorem upsert_create_is_the_body_over_the_path_id (request : Request) :
  every_run
    (fun tr _ =>
       forall c, In c (calls tr) ->
         match c with
         | PrefsUpsert user_id update create =>
             user_id = param_user_id request /\
             update = body request /\
             (forall k v, get_last k (body request) = Some v -> get_prop k create = Some v) /\
             (get_last "user_id" (body request) = None ->
              get_prop "user_id" create = Some (JStr (param_user_id request)))
         | UserFindUniqueSelect id => id = param_user_id request
         | _ => False
         end)
    (patch_preferences_handler request).
Proof.
  assert (Hcreate :
            (forall k v, get_last k (body request) = Some v ->
               get_prop k (spread [("user_id", JStr (param_user_id request))] (body request))
               = Some v) /\
            (get_last "user_id" (body request) = None ->
             get_prop "user_id"
               (spread [("user_id", JStr (param_user_id request))] (body request))
             = Some (JStr (param_user_id request)))).
  { split.
    - intros k v H. now rewrite get_prop_spread, H.
    - intros H. now rewrite get_prop_spread, H. }
  unfold patch_preferences_handler.
  walk; cbn; intros call Hin;
    repeat match goal with
      | H : _ \/ _ |- _ => destruct H as [<-|H]
      | H : False |- _ => destruct H
      end; auto.
Qed.

Lemma upsert_create_is_the_body_over_the_path_id_witness :
  get_prop "user_id"
    (spread [("user_id", JStr "id-0")] [("sms", JBool true); ("user_id", JStr "id-7")])
  = Some (JStr "id-7") /\
  calls (Store.trace Toy.libs Toy.with_alice
           (patch_preferences_handler
              (Toy.patch_request Toy.alice_claims "id-0"
                 [("sms", JBool true); ("user_id", JStr "id-7")])))
  = [PrefsUpsert "id-0" [("sms", JBool true); ("user_id", JStr "id-7")]
       [("user_id", JStr "id-7"); ("sms", JBool true)]].
Proof.
  pose proof (every_run_exec Toy.libs _ _ Toy.with_alice
                (upsert_create_is_the_body_over_the_path_id
                   (Toy.patch_request Toy.alice_claims "id-0"
                      [("sms", JBool true); ("user_id", JStr "id-7")]))) as Hrun.
  cbn beta in Hrun.
  split; [|vm_compute; reflexivity].
  assert (Hin : In (PrefsUpsert "id-0" [("sms", JBool true); ("user_id", JStr "id-7")]
                      (spread [("user_id", JStr "id-0")]
                         [("sms", JBool true); ("user_id", JStr "id-7")]))
                   (calls (Store.trace Toy.libs Toy.with_alice
                             (patch_preferences_handler
                                (Toy.patch_request Toy.alice_claims "id-0"
                                   [("sms", JBool true); ("user_id", JStr "id-7")])))))
    by (left; reflexivity).
  destruct (Hrun _ Hin) as (_ & _ & Hkeys & _).
  exact (Hkeys "user_id" (JStr "id-7") eq_refl).
Defined.

Lemma prefix_from (p : string) :
  forall s, prefix p s = true -> s = p ++ Str.from (String.length p) s.
Proof.
  induction p as [|a p IH]; intros s Hp.
  - unfold Str.from. cbn. rewrite Nat.sub_0_r. symmetry. apply StrFacts.substring_all.
  - destruct s as [|c s]; [discriminate Hp|]. cbn in Hp.
    destruct (ascii_dec a c) as [<-|]; [|discriminate Hp].
    cbn. f_equal. exact (IH s Hp).
Qed.

(** X11.  A header that passes the test of the gate is [Bearer ] followed by
    the token that the gate verifies, and the other way round: the gate takes
    everything after the seventh character, trimming nothing. *)
Theorem bearer_token_is_the_rest :
  (forall authHeader,
     Str.startsWith "Bearer " authHeader = true ->
     authHeader = "Bearer " ++ bearer_token authHeader) /\
  (forall token,
     Str.startsWith "Bearer " ("Bearer " ++ token) = true /\
     bearer_token ("Bearer " ++ token) = token).
Proof.
  split.
  - intros h Hp. exact (prefix_from "Bearer " h Hp).
  - intros token. split.
    + cbn. apply prefix_nil.
    + apply (StrFacts.from_append "Bearer ").
Qed.

Lemma bearer_token_is_the_rest_witness :
  "Bearer a.b c" = "Bearer " ++ bearer_token "Bearer a.b c" /\
  bearer_token ("Bearer " ++ " spaced ") = " spaced ".
Proof.
  destruct bearer_token_is_the_rest as [Hsplit Hjoin].
  split; [exact (Hsplit "Bearer a.b c" eq_refl) | exact (proj2 (Hjoin " spaced "))].
Defined.

(** X12.  A hash embeds its cost and its salt, which can be read back from
    it; so two hashes made under different salts differ, whatever the
    passwords and the bcrypt core. *)
Theorem hashPassword_embeds_the_salt (core : nat -> string -> string -> string)
    (salt1 salt2 p1 p2 : string) :
  String.length salt1 = 22 -> String.length salt2 = 22 ->
  Password.parse_settings (Password.hashPassword core salt1 p1)
  = Some (Password.SALT_ROUNDS, salt1) /\
  (salt1 <> salt2 ->
   Password.hashPassword core salt1 p1 <> Password.hashPassword core salt2 p2).
Proof.
  intros H1 H2.
  assert (Hparse : forall salt p, String.length salt = 22 ->
            Password.parse_settings (Password.hashPassword core salt p)
            = Some (Password.SALT_ROUNDS, salt)).
  { intros salt p Hlen. unfold Password.hashPassword, Password.bcrypt_hash.
    now apply PasswordFacts.parse_settings_hash. }
  split; [now apply Hparse|].
  intros Hne Heq. apply Hne.
  pose proof (Hparse salt1 p1 H1) as Ha. pose proof (Hparse salt2 p2 H2) as Hb.
  rewrite Heq in Ha. congruence.
Qed.

Lemma hashPassword_embeds_the_salt_witness :
  Password.hashPassword (bcrypt_core Toy.libs) Toy.salt "password123"
  <> Password.hashPassword (bcrypt_core Toy.libs) (Str.replicate 22 "t"%char) "password123".
Proof.
  destruct (hashPassword_embeds_the_salt (bcrypt_core Toy.libs) Toy.salt
              (Str.replicate 22 "t"%char) "password123" "password123" eq_refl eq_refl)
    as [_ Hdiffer].
  apply Hdiffer. discriminate.
Defined.

(** ** The envelope, the error handler, the correlation id *)

(** X13.  [createResponse] always sets [success] and [message], and sets
    [data], [error] and [meta] exactly when the argument is not undefined (a
    [null] is kept), in that order; without [meta] and with a string for the
    error it is the envelope of the routes. *)
Theorem createResponse_properties (success : bool) (message : string)
    (data error meta : option JsVal) :
  let response := SharedResponse.createResponse success message data error meta in
  get_prop "success" response = Some (JBool success) /\
  get_prop "message" response = Some (JStr message) /\
  get_prop "data" response = data /\
  get_prop "error" response = error /\
  get_prop "meta" response = meta /\
  map fst response
  = (["success"; "message"]
     ++ match data with Some _ => ["data"] | None => [] end
     ++ match error with Some _ => ["error"] | None => [] end
     ++ match meta with Some _ => ["meta"] | None => [] end)%list /\
  (forall e : option string,
     SharedResponse.createResponse success message data (option_map JStr e) None
     = createResponse success message data e).
Proof.
  cbv zeta. destruct data, error, meta; cbn; repeat split;
    intros [e|]; reflexivity.
Qed.

(** X14.  Whatever the error, the reply of the error handler has
    [success: false], a non-empty [message] and a status that is not 0.  An
    error with a truthy [validation] is answered 400 "Validation failed"
    even when it has a Prisma code; otherwise an error whose code starts
    with [P] is answered 400 "Database error" with its message, whatever its
    own [statusCode]. *)
Theorem errorHandler_properties (error : Server.FastifyError) :
  get_prop "success" (payload (Server.errorHandler error)) = Some (JBool false) /\
  (exists m, get_prop "message" (payload (Server.errorHandler error)) = Some (JStr m) /\
             Str.is_empty m = false) /\
  status (Server.errorHandler error) <> 0 /\
  (forall v, Server.fe_validation error = Some v -> Js.truthy v = true ->
     Server.errorHandler error
     = mkReply 400 [("success", JBool false); ("message", JStr "Validation failed");
                    ("errors", v)]) /\
  ((forall v, Server.fe_validation error = Some v -> Js.truthy v = false) ->
   Server.prisma_coded error = true ->
   Server.errorHandler error
   = mkReply 400 [("success", JBool false); ("message", JStr "Database error");
                  ("error", JStr (Server.fe_message error))]).
Proof.
  unfold Server.errorHandler, Server.validation_errors.
  repeat split.
  - destruct (Server.fe_validation error) as [v|].
    + destruct (Js.truthy v); [reflexivity|].
      destruct (Server.prisma_coded error); reflexivity.
    + destruct (Server.prisma_coded error); reflexivity.
  - assert (Hmessage : exists m,
              Js.or_else (Some (Server.fe_message error)) "Internal server error" = m /\
              Str.is_empty m = false).
    { unfold Js.or_else. destruct (Str.is_empty (Server.fe_message error)) eqn:E;
        eexists; split; try reflexivity; exact E. }
    destruct Hmessage as (m & Hm & Hne).
    assert (Hrest :
              exists m0,
                get_prop "message"
                  (payload
                     (if Server.prisma_coded error
                      then mkReply 400 [("success", JBool false);
                                        ("message", JStr "Database error");
                                        ("error", JStr (Server.fe_message error))]
                      else mkReply (Server.status_or_500 error)
                             [("success", JBool false);
                              ("message",
                               JStr (Js.or_else (Some (Server.fe_message error))
                                       "Internal server error"))]))
                = Some (JStr m0) /\ Str.is_empty m0 = false).
    { destruct (Server.prisma_coded error).
      - eexists; split; reflexivity.
      - exists m. split; [rewrite <- Hm; reflexivity | exact Hne]. }
    destruct (Server.fe_validation error) as [v|]; [|exact Hrest].
    destruct (Js.truthy v); [|exact Hrest].
    eexists; split; reflexivity.
  - assert (Hstatus : Server.status_or_500 error <> 0).
    { unfold Server.status_or_500.
      destruct (Server.fe_statusCode error) as [[|n]|]; discriminate. }
    destruct (Server.fe_validation error) as [v|].
    + destruct (Js.truthy v); [discriminate|].
      destruct (Server.prisma_coded error); [discriminate | exact Hstatus].
    + destruct (Server.prisma_coded error); [discriminate | exact Hstatus].
  - intros v -> Htruthy. now rewrite Htruthy.
  - intros Hfalsy Hcoded. destruct (Server.fe_validation error) as [v|].
    + rewrite (Hfalsy v eq_refl). now rewrite Hcoded.
    + now rewrite Hcoded.
Qed.

Lemma errorHandler_properties_witness :
  Server.errorHandler
    (Server.mkFastifyError (Some (JObj [("0", JStr "body must be object")]))
       (Some "P2002") (Some 409) "boom")
  = mkReply 400 [("success", JBool false); ("message", JStr "Validation failed");
                 ("errors", JObj [("0", JStr "body must be object")])] /\
  Server.errorHandler (Server.mkFastifyError None (Some "P2002") (Some 409) "boom")
  = mkReply 400 [("success", JBool false); ("message", JStr "Database error");
                 ("error", JStr "boom")].
Proof.
  split.
  - destruct (errorHandler_properties
                (Server.mkFastifyError (Some (JObj [("0", JStr "body must be object")]))
                   (Some "P2002") (Some 409) "boom")) as (_ & _ & _ & Hvalidation & _).
    exact (Hvalidation _ eq_refl eq_refl).
  - destruct (errorHandler_properties
                (Server.mkFastifyError None (Some "P2002") (Some 409) "boom"))
      as (_ & _ & _ & _ & Hprisma).
    apply Hprisma; [discriminate | reflexivity].
Defined.

(** X15.  The correlation id that the hook puts on the request is the one
    it puts in the reply header and binds to the logger.  A request that
    carries a non-empty [x-correlation-id] gets it back unchanged; the UUID
    is used when the header is missing or empty, so the id is never empty
    when the UUID is not. *)
Theorem correlation_id_is_echoed (header : option string) (uuid : string) :
  let tagged := CorrelationId.onRequest header uuid in
  CorrelationId.reply_header tagged = CorrelationId.request_correlationId tagged /\
  CorrelationId.log_correlation_id tagged = CorrelationId.request_correlationId tagged /\
  (forall h, header = Some h -> Str.is_empty h = false ->
     CorrelationId.reply_header tagged = h) /\
  ((header = None \/ header = Some EmptyString) ->
   CorrelationId.reply_header tagged = uuid) /\
  (Str.is_empty uuid = false ->
   Str.is_empty (CorrelationId.request_correlationId tagged) = false).
Proof.
  cbv zeta. unfold CorrelationId.onRequest, Js.or_else. cbn. repeat split.
  - intros h -> Hh. now rewrite Hh.
  - intros [-> | ->]; reflexivity.
  - intros Hu. destruct header as [h|]; [|exact Hu].
    destruct (Str.is_empty h) eqn:Hh; [exact Hu | exact Hh].
Qed.

Lemma correlation_id_is_echoed_witness :
  CorrelationId.reply_header
    (CorrelationId.onRequest (Some "123e4567-e89b-12d3-a456-426614174000") "fresh")
  = "123e4567-e89b-12d3-a456-426614174000" /\
  CorrelationId.reply_header (CorrelationId.onRequest None "fresh") = "fresh".
Proof.
  split.
  - destruct (correlation_id_is_echoed (Some "123e4567-e89b-12d3-a456-426614174000") "fresh")
      as (_ & _ & Hecho & _).
    exact (Hecho _ eq_refl eq_refl).
  - destruct (correlation_id_is_echoed None "fresh") as (_ & _ & _ & Hfresh & _).
    exact (Hfresh (or_introl eq_refl)).
Defined.

(** ** Configuration *)

Module JsFacts.






End JsFacts.



(** ** Start-up and registration *)

Ltac stroll :=
  repeat (cbn [Ops.always Ops.andThen];
          match goal with
          | |- forall o : Outcome _, _ => intros [?|?]
          | |- Ops.always _ (match ?x with _ => _ end) => destruct x eqn:?
          | |- Ops.always _ (Ops.andThen (match ?x with _ => _ end) _) => destruct x eqn:?
          end);
  cbn [Ops.always].

Lemma always_run {R : Type} (oracle : forall c, Outcome (Ops.Answer c)) (p : Ops.Script R) :
  forall P : list Ops.Event -> R -> Prop,
    Ops.always P p -> P (fst (Ops.run oracle p)) (snd (Ops.run oracle p)).
Proof.
  induction p as [r | c k IH]; intros P H; cbn in *.
  - exact H.
  - specialize (IH (oracle c) _ (H (oracle c))).
    destruct (Ops.run oracle (k (oracle c))) as [tr r]. exact IH.
Qed.

(** X17.  On one host two instances get different service ids exactly when
    their instance ids differ, and the id that the [onClose] hook of the
    plugin deregisters is the id under which the plugin registered. *)
Theorem service_id_is_per_instance (env : Ops.ProcessEnv) (hostname : string)
    (instanceId1 instanceId2 : string) :
  (Ops.serviceId hostname instanceId1 = Ops.serviceId hostname instanceId2 <->
   instanceId1 = instanceId2) /\
  Ops.always
    (fun tr _ => Ops.calls tr
                 = [Ops.ConsulDeregister
                      (Ops.id (Ops.serviceConfig env hostname instanceId1))])
    (Ops.consul_onClose hostname instanceId1) /\
  Ops.always
    (fun tr _ => Ops.calls tr
                 = [Ops.ConsulRegister (Ops.serviceConfig env hostname instanceId1)])
    (Ops.consulPlugin env hostname instanceId1).
Proof.
  split; [|split].
  - split; [|intros ->; reflexivity].
    unfold Ops.serviceId. intros H.
    apply StrFacts.append_inv_l in H. apply StrFacts.append_inv_l in H.
    apply StrFacts.append_inv_l in H. exact (StrFacts.append_inv_l _ _ _ H).
  - unfold Ops.consul_onClose, Ops.deregister. stroll; reflexivity.
  - unfold Ops.consulPlugin, Ops.register. stroll; reflexivity.
Qed.

Lemma service_id_is_per_instance_witness :
  Ops.serviceId "host" "1b4e28ba" <> Ops.serviceId "host" "6ec0bd7f" /\
  Ops.calls (fst (Ops.run Ops.all_up (Ops.consul_onClose "host" "1b4e28ba")))
  = [Ops.ConsulDeregister "user-service-host-1b4e28ba"].
Proof.
  destruct (service_id_is_per_instance (Ops.mkProcessEnv None None None None)
              "host" "1b4e28ba" "6ec0bd7f") as (Hid & Hclose & _).
  split.
  - intros H. apply Hid in H. discriminate H.
  - exact (always_run Ops.all_up _ _ Hclose).
Defined.


(** X19.  In every run of the start, the port registered with Consul and
    the port in the URL of its health check are the port the server listens
    on.  The hosts agree when [HOST] is set; when it is unset or empty the
    server listens on [0.0.0.0] and registers the address [localhost]. *)
Theorem registered_port_is_the_listening_port (env : Ops.ProcessEnv)
    (hostname instanceId : string) :
  Ops.always
    (fun tr _ =>
       forall config listen_port listen_host,
         In (Ops.ConsulRegister config) (Ops.calls tr) ->
         In (Ops.Listen listen_port listen_host) (Ops.calls tr) ->
         Ops.port config = listen_port /\
         Ops.http (Ops.check config) = Ops.health_url (Ops.address config) listen_port /\
         (forall host, Ops.HOST env = Some host -> Str.is_empty host = false ->
            Ops.address config = host /\ listen_host = host) /\
         ((Ops.HOST env = None \/ Ops.HOST env = Some EmptyString) ->
          Ops.address config = "localhost" /\ listen_host = "0.0.0.0"))
    (Ops.main env hostname instanceId).
Proof.
  unfold Ops.main, Ops.prismaPlugin, Ops.consulPlugin, Ops.register, Ops.start.
  stroll; cbn; intros config listen_port listen_host Hregister Hlisten;
    repeat match goal with
      | H : _ \/ _ |- _ => destruct H as [H|H]
      | H : False |- _ => destruct H
      | H : Ops.PrismaConnect = _ |- _ => discriminate H
      | H : Ops.Listen _ _ = Ops.ConsulRegister _ |- _ => discriminate H
      | H : Ops.ConsulRegister _ = Ops.Listen _ _ |- _ => discriminate H
      end.
  all: assert (Hconfig : config = Ops.serviceConfig env hostname instanceId) by congruence;
    assert (Hport : listen_port = Ops.servicePort env) by congruence;
    assert (Hhost : listen_host = Js.or_else (Ops.HOST env) "0.0.0.0") by congruence;
    subst config listen_port listen_host;
    (split; [reflexivity|]); (split; [reflexivity|]); split.
  all: try (intros host Hset Hne; cbn; unfold Js.or_else; rewrite Hset, Hne;
            split; reflexivity).
  all: intros [Hunset | Hunset]; cbn; unfold Js.or_else; rewrite Hunset;
    split; reflexivity.
Qed.

Lemma registered_port_is_the_listening_port_witness :
  Ops.port (Ops.serviceConfig (Ops.mkProcessEnv None None (Some "8080") None) "h" "i")
  = Some 8080%Z /\
  Ops.address (Ops.serviceConfig (Ops.mkProcessEnv None None (Some "8080") None) "h" "i")
  = "localhost".
Proof.
  pose proof (always_run Ops.all_up _ _
                (registered_port_is_the_listening_port
                   (Ops.mkProcessEnv None None (Some "8080") None) "h" "i")) as Hrun.
  cbn beta in Hrun.
  destruct (Hrun (Ops.serviceConfig (Ops.mkProcessEnv None None (Some "8080") None) "h" "i")
              (Some 8080%Z) "0.0.0.0"
              (or_intror (or_introl eq_refl))
              (or_intror (or_intror (or_introl eq_refl))))
    as (Hport & _ & _ & Hhost).
  split; [exact Hport | exact (proj1 (Hhost (or_introl eq_refl)))].
Defined.


(** ** The test script of the Consul integration *)

(** The configuration that the script registers is not the one that the
    plugin registers: their names differ. *)
Lemma test_config_is_not_the_plugin_config (env env' : Ops.ProcessEnv)
    (h i h' i' : string) :
  Ops.ConsulRegister (Ops.serviceConfig env h i)
  <> Ops.ConsulRegister (ConsulTest.serviceConfig env' h' i').
Proof.
  intros H.
  assert (Hname : Ops.name (Ops.serviceConfig env h i)
                  = Ops.name (ConsulTest.serviceConfig env' h' i')) by congruence.
  discriminate Hname.
Qed.

(** X20.  The plugin test does not see Consul: once the test server is
    there, it registers the plugin, closes the server, which deregisters,
    and passes, whatever Consul answered to either call; it fails only when
    the test server cannot be made. *)
Theorem plugin_test_passes_without_consul (env : Ops.ProcessEnv)
    (hostname pluginInstanceId : string) :
  Ops.always
    (fun tr passed =>
       (In Ops.CreateTestServer (Ops.succeeded tr) ->
        passed = true /\
        Ops.calls tr
        = [Ops.CreateTestServer;
           Ops.ConsulRegister (Ops.serviceConfig env hostname pluginInstanceId);
           Ops.ConsulDeregister (Ops.serviceId hostname pluginInstanceId)]) /\
       (In Ops.CreateTestServer (Ops.failed tr) ->
        passed = false /\ Ops.calls tr = [Ops.CreateTestServer]))
    (ConsulTest.testConsulPlugin env hostname pluginInstanceId).
Proof.
  unfold ConsulTest.testConsulPlugin, Ops.consulPlugin, Ops.register,
    Ops.consul_onClose, Ops.deregister.
  stroll; cbn; split; intros H;
    repeat match goal with
      | H : _ \/ _ |- _ => destruct H as [H|H]
      | H : False |- _ => destruct H
      | H : _ = _ |- _ => discriminate H
      end;
    split; reflexivity.
Qed.

Lemma plugin_test_passes_without_consul_witness :
  snd (Ops.run Ops.consul_down
         (ConsulTest.testConsulPlugin (Ops.mkProcessEnv None None None None) "h" "p"))
  = true.
Proof.
  destruct (always_run Ops.consul_down _ _
              (plugin_test_passes_without_consul
                 (Ops.mkProcessEnv None None None None) "h" "p")) as [Hup _].
  exact (proj1 (Hup (or_introl eq_refl))).
Defined.

(** X21.  In every run of [runTests] the exit code is 0 when all five
    results are [true] and 1 otherwise.  When the connection test fails, the
    script registers nothing of its own and lists no services; when its
    registration fails, it lists no services either; and whenever its
    registration succeeded it goes on to deregister the same id, whatever the
    discovery test found. *)
Theorem runTests_gates_and_cleans_up (env : Ops.ProcessEnv)
    (hostname instanceId pluginInstanceId : string) :
  Ops.always
    (fun tr ended =>
       let results := fst ended in
       let code := snd ended in
       code = (if ConsulTest.allPassed results then 0 else 1) /\
       (ConsulTest.consulConnection results = false ->
        ConsulTest.serviceRegistration results = false /\
        ~ In (Ops.ConsulRegister (ConsulTest.serviceConfig env hostname instanceId))
             (Ops.calls tr)) /\
       (ConsulTest.serviceRegistration results = false ->
        ConsulTest.serviceDiscovery results = false /\
        ConsulTest.serviceDeregistration results = false /\
        code = 1 /\
        ~ In Ops.ConsulList (Ops.calls tr)) /\
       (In (Ops.ConsulRegister (ConsulTest.serviceConfig env hostname instanceId))
           (Ops.succeeded tr) ->
        In (Ops.ConsulDeregister (ConsulTest.serviceId hostname instanceId))
           (Ops.calls tr)))
    (ConsulTest.runTests env hostname instanceId pluginInstanceId).
Proof.
  pose proof (test_config_is_not_the_plugin_config env env hostname pluginInstanceId
                hostname instanceId) as Hother.
  unfold ConsulTest.runTests, ConsulTest.testConsulConnection,
    ConsulTest.testServiceRegistration, ConsulTest.testServiceDiscovery,
    ConsulTest.testServiceDeregistration, ConsulTest.testConsulPlugin,
    Ops.consulPlugin, Ops.register, Ops.consul_onClose, Ops.deregister.
  stroll; cbn; (split; [reflexivity|]);
    repeat split; try discriminate; try reflexivity;
    unfold not; intros;
    repeat match goal with
      | H : _ \/ _ |- _ => destruct H as [H|H]
      | H : False |- _ => destruct H
      | H : Ops.ConsulRegister _ = Ops.ConsulRegister _ |- _ => destruct (Hother H)
      | H : _ = _ |- _ => discriminate H
      end;
    auto 10.
Qed.

Lemma runTests_gates_and_cleans_up_witness :
  snd (snd (Ops.run Ops.consul_down
              (ConsulTest.runTests (Ops.mkProcessEnv None None None None) "h" "i" "p")))
  = 1 /\
  In (Ops.ConsulDeregister (ConsulTest.serviceId "h" "i"))
     (Ops.calls (fst (Ops.run Ops.all_up
                        (ConsulTest.runTests (Ops.mkProcessEnv None None None None)
                           "h" "i" "p")))).
Proof.
  split.
  - destruct (always_run Ops.consul_down _ _
                (runTests_gates_and_cleans_up
                   (Ops.mkProcessEnv None None None None) "h" "i" "p"))
      as (Hcode & _).
    rewrite Hcode. reflexivity.
  - destruct (always_run Ops.all_up _ _
                (runTests_gates_and_cleans_up
                   (Ops.mkProcessEnv None None None None) "h" "i" "p"))
      as (_ & _ & _ & Hclean).
    apply Hclean. right. left. reflexivity.
Defined.
